(** * DeReK: incident tickets from text, validated and posted to an n8n webhook

    A shallow embedding of [src/core/text_to_ticket.py] and
    [src/core/post_to_n8n.py].

    - Python values are terms of [value]; a [dict] with string keys is a
      [gmap string value].
    - A Python [str] is a [string], one [ascii] per code point: the model
      covers the strings whose code points are below 256.
    - A Python [float] is a binary64 [spec_float]; conversions round to
      nearest, ties to even.
    - A call either returns or raises: [result].  Functions that touch the
      outside (the clock, the completion service, the decoder of [json], the
      webhook, the console, a dict received by reference) run in the monad
      [M] over a [World].  What the completion service, the decoder and
      [requests.post] return or raise is given by the world, and the world
      may raise an exception of any class. *)

From Corelib Require Import SpecFloat.
From Stdlib Require Import ZArith Lia Bool Ascii String DecimalString.
From stdpp Require Import base option list strings gmap fin_maps.

Set Warnings "-register-all".
Open Scope Z_scope.
Open Scope string_scope.

(** ** Python values *)

Inductive value : Type :=
| VNone
| VBool (b : bool)
| VInt (z : Z)
| VFloat (f : spec_float)
| VStr (s : string)
| VList (l : list value)
| VDict (d : gmap string value).

#[global] Instance value_inhabited : Inhabited value := populate VNone.

(** ** Exceptions

    The classes the two modules can meet, with their base classes.  The
    classes of [requests.exceptions] are kept apart: they all derive from
    [RequestException], which is what [post_incident] catches.  A call of
    [requests.post] can also raise an exception of another class: a
    [ValueError] for a timeout that is not positive, an [OSError] for a
    missing certificate bundle. *)

Inductive requests_exn : Type :=
| RequestException
| HTTPError
| ConnectionError
| ProxyError
| SSLError
| Timeout
| ConnectTimeout
| ReadTimeout
| TooManyRedirects
| MissingSchema
| InvalidURL
| ChunkedEncodingError
| InvalidJSONError
| RequestsJSONDecodeError.

Inductive exn_class : Type :=
| BaseException
| Exception
| LookupError
| KeyError
| TypeError
| ValueError
| ArithmeticError
| OverflowError
| AttributeError
| RuntimeError
| RecursionError
| OSError
| JSONDecodeError
| OpenAIError
| Requests (c : requests_exn).

#[global] Instance requests_exn_eq_dec : EqDecision requests_exn.
Proof. solve_decision. Defined.

#[global] Instance exn_class_eq_dec : EqDecision exn_class.
Proof. solve_decision. Defined.

(** The direct base classes, as the class statements of CPython, [json],
    [openai] and [requests.exceptions] give them. *)
Definition bases (c : exn_class) : list exn_class :=
  match c with
  | BaseException => []
  | Exception => [BaseException]
  | LookupError => [Exception]
  | KeyError => [LookupError]
  | TypeError => [Exception]
  | ValueError => [Exception]
  | ArithmeticError => [Exception]
  | OverflowError => [ArithmeticError]
  | AttributeError => [Exception]
  | RuntimeError => [Exception]
  | RecursionError => [RuntimeError]
  | OSError => [Exception]
  | JSONDecodeError => [ValueError]
  | OpenAIError => [Exception]
  | Requests RequestException => [OSError]
  | Requests HTTPError => [Requests RequestException]
  | Requests ConnectionError => [Requests RequestException]
  | Requests ProxyError => [Requests ConnectionError]
  | Requests SSLError => [Requests ConnectionError]
  | Requests Timeout => [Requests RequestException]
  | Requests ConnectTimeout => [Requests ConnectionError; Requests Timeout]
  | Requests ReadTimeout => [Requests Timeout]
  | Requests TooManyRedirects => [Requests RequestException]
  | Requests MissingSchema => [Requests RequestException; ValueError]
  | Requests InvalidURL => [Requests RequestException; ValueError]
  | Requests ChunkedEncodingError => [Requests RequestException]
  | Requests InvalidJSONError => [Requests RequestException]
  | Requests RequestsJSONDecodeError => [Requests InvalidJSONError; JSONDecodeError]
  end.

(** [issubclass c d]: [d] is [c] or is reached from [c] through [bases].
    The hierarchy above is at most six classes deep. *)
Fixpoint subclass_upto (depth : nat) (c d : exn_class) : bool :=
  bool_decide (c = d) ||
  match depth with
  | O => false
  | S depth' => existsb (fun b => subclass_upto depth' b d) (bases c)
  end.

Definition issubclass (c d : exn_class) : bool := subclass_upto 6 c d.

(** A raised exception: its class and [str(e)]. *)
Record exn : Type := Exn { exn_cls : exn_class; exn_str : string }.

(** ** Results of calls *)

Inductive result (A : Type) : Type :=
| Ret (a : A)
| Raise (e : exn).

Arguments Ret {A} a.
Arguments Raise {A} e.

(** ** Truth value testing and [or] *)

Definition float_is_zero (f : spec_float) : bool :=
  match f with
  | S754_zero _ => true
  | _ => false
  end.

(** [bool(v)]: [None], [False], zero of a numeric type, and empty strings,
    lists and dicts are false; NaN and everything else are true. *)
Definition truthy (v : value) : bool :=
  match v with
  | VNone => false
  | VBool b => b
  | VInt z => negb (Z.eqb z 0)
  | VFloat f => negb (float_is_zero f)
  | VStr s => negb (String.eqb s "")
  | VList l => match l with [] => false | _ => true end
  | VDict d => negb (Nat.eqb (size d) 0)
  end.

(** [a or b] on values already computed. *)
Definition py_or (a b : value) : value := if truthy a then a else b.

(** [d.get(key)]: the value, [None] for a missing key. *)
Definition dict_get (d : gmap string value) (key : string) : value :=
  default VNone (d !! key).

(** ** Characters and strings *)

Definition code (c : ascii) : N := N_of_ascii c.

Definition in_range (lo hi : N) (c : ascii) : bool :=
  N.leb lo (code c) && N.leb (code c) hi.

Definition is_digit (c : ascii) : bool := in_range 48 57 c.

Definition digit_of (c : ascii) : Z := Z.of_N (code c) - 48.

(** The value of a run of decimal digits, most significant first. *)
Fixpoint digits_value (acc : Z) (s : string) : Z :=
  match s with
  | EmptyString => acc
  | String c r => digits_value (10 * acc + digit_of c) r
  end.

(** [span p s]: the longest prefix of [s] whose characters satisfy [p], and
    what follows it. *)
Fixpoint span (p : ascii -> bool) (s : string) : string * string :=
  match s with
  | EmptyString => (EmptyString, EmptyString)
  | String c r =>
      if p c then let '(a, b) := span p r in (String c a, b)
      else (EmptyString, s)
  end.

Fixpoint string_forall (p : ascii -> bool) (s : string) : bool :=
  match s with
  | EmptyString => true
  | String c r => p c && string_forall p r
  end.

Fixpoint string_map (f : ascii -> ascii) (s : string) : string :=
  match s with
  | EmptyString => EmptyString
  | String c r => String (f c) (string_map f r)
  end.

Fixpoint lstrip (p : ascii -> bool) (s : string) : string :=
  match s with
  | EmptyString => EmptyString
  | String c r => if p c then lstrip p r else s
  end.

(** Drops the trailing characters that satisfy [p]; with [keep_one], never
    the first character of the string. *)
Fixpoint rstrip (keep_one : bool) (p : ascii -> bool) (s : string) : string :=
  match s with
  | EmptyString => EmptyString
  | String c r =>
      match rstrip false p r with
      | EmptyString => if p c && negb keep_one then EmptyString else String c EmptyString
      | r' => String c r'
      end
  end.

(** C's [isspace] in the C locale (CPython's [Py_ISSPACE]). *)
Definition c_isspace (c : ascii) : bool :=
  in_range 9 13 c || N.eqb (code c) 32.

(** [str.isspace] on one code point below 256. *)
Definition unicode_isspace (c : ascii) : bool :=
  c_isspace c || in_range 28 31 c || N.eqb (code c) 133 || N.eqb (code c) 160.

(** [s.strip()] *)
Definition strip (s : string) : string :=
  rstrip false unicode_isspace (lstrip unicode_isspace s).

Definition lower (c : ascii) : ascii :=
  if in_range 65 90 c then ascii_of_N (code c + 32) else c.

(** A line feed and a double quote, as one-character strings. *)
Definition nl : string := String (ascii_of_N 10) EmptyString.

Definition dq : string := String (ascii_of_N 34) EmptyString.

(** [str(n)] for an [int]. *)
Definition str_of_int (z : Z) : string := NilZero.string_of_int (Z.to_int z).

(** ** Floats and [float()] *)

Definition float_zero : spec_float := S754_zero false.

Definition float_one : spec_float := S754_finite false 4503599627370496 (-52).

(** The binary64 nearest to [n / d], for integers [0 <= n] and [0 < d]. *)
Definition float_of_ratio (neg : bool) (n d : Z) : spec_float :=
  if Z.eqb n 0 then S754_zero neg
  else
    let '(q, e, l) := SFdiv_core_binary 53 1024 n 0 d 0 in
    binary_round_aux 53 1024 neg q e l.

(** The binary64 nearest to [m * 10 ^ e]. *)
Definition float_of_decimal (neg : bool) (m e : Z) : spec_float :=
  if Z.leb 0 e then float_of_ratio neg (m * 10 ^ e) 1
  else float_of_ratio neg m (10 ^ (- e)).

(** [float(n)] for an [int]: [OverflowError] beyond the finite range. *)
Definition float_of_int (z : Z) : result spec_float :=
  match binary_normalize 53 1024 z 0 false with
  | S754_infinity _ => Raise (Exn OverflowError "int too large to convert to float")
  | f => Ret f
  end.

(** What [float()] makes of the characters of a [str] before parsing:
    an all-ASCII string is taken as it is; otherwise code points below 127
    are kept, a Unicode space becomes a blank and anything else ['?']. *)
Definition to_ascii_spaces (s : string) : string :=
  if string_forall (fun c => N.ltb (code c) 128) s then s
  else string_map (fun c =>
         if N.ltb (code c) 127 then c
         else if unicode_isspace c then " "%char else "?"%char) s.

(** Underscores of a numeric literal: one is allowed only between two digits.
    [prev] is the character before [s]; the result is [s] without its
    underscores. *)
Fixpoint drop_underscores (prev : ascii) (s : string) : option string :=
  match s with
  | EmptyString => if Ascii.eqb prev "_" then None else Some EmptyString
  | String c r =>
      if Ascii.eqb c "_" then
        if is_digit prev then drop_underscores c r else None
      else if Ascii.eqb prev "_" && negb (is_digit c) then None
      else String c <$> drop_underscores c r
  end.

Definition read_sign (s : string) : bool * string :=
  match s with
  | String "-" r => (true, r)
  | String "+" r => (false, r)
  | _ => (false, s)
  end.

(** The exponent part, which must reach the end of the string: nothing, or
    [e] or [E], an optional sign and at least one digit. *)
Definition read_exponent (s : string) : option Z :=
  match s with
  | EmptyString => Some 0
  | String c r =>
      if Ascii.eqb (lower c) "e" then
        let '(neg, r1) := read_sign r in
        let '(ds, r2) := span is_digit r1 in
        match ds, r2 with
        | String _ _, EmptyString =>
            Some (if neg then - digits_value 0 ds else digits_value 0 ds)
        | _, _ => None
        end
      else None
  end.

(** A decimal literal: sign, digits with an optional point (at least one
    digit in all), optional exponent. *)
Definition parse_decimal (s : string) : option spec_float :=
  let '(neg, s1) := read_sign s in
  let '(ip, s2) := span is_digit s1 in
  let '(fp, s3) :=
    match s2 with
    | String "." r => span is_digit r
    | _ => (EmptyString, s2)
    end in
  match String.append ip fp with
  | EmptyString => None
  | String _ _ as ds =>
      e ← read_exponent s3;
      Some (float_of_decimal neg (digits_value 0 ds) (e - Z.of_nat (String.length fp)))
  end.

(** [inf], [infinity] and [nan], signed or not, in any case. *)
Definition parse_inf_or_nan (s : string) : option spec_float :=
  let '(neg, s1) := read_sign s in
  let w := string_map lower s1 in
  if String.eqb w "inf" || String.eqb w "infinity" then Some (S754_infinity neg)
  else if String.eqb w "nan" then Some S754_nan
  else None.

(** [float(s)] for a [str]; [None] stands for [ValueError]. *)
Definition float_of_str (s : string) : option spec_float :=
  match rstrip true c_isspace (lstrip c_isspace (to_ascii_spaces s)) with
  | EmptyString => None
  | String _ _ as t =>
      u ← drop_underscores "000" t;
      match parse_decimal u with
      | Some f => Some f
      | None => parse_inf_or_nan u
      end
  end.

(** [float(v)] *)
Definition py_float (v : value) : result spec_float :=
  match v with
  | VBool b => Ret (if b then float_one else float_zero)
  | VInt z => float_of_int z
  | VFloat f => Ret f
  | VStr s =>
      match float_of_str s with
      | Some f => Ret f
      | None => Raise (Exn ValueError "could not convert string to float")
      end
  | VNone | VList _ | VDict _ =>
      Raise (Exn TypeError "float() argument must be a string or a real number")
  end.

(** ** Dates, [strftime] and [strptime] with the format [%Y-%m-%d] *)

Record date : Type := Date { year : Z; month : Z; day : Z }.

Definition is_leap (y : Z) : bool :=
  Z.eqb (y mod 4) 0 && (negb (Z.eqb (y mod 100) 0) || Z.eqb (y mod 400) 0).

Definition days_in_month (y m : Z) : Z :=
  if Z.eqb m 2 then (if is_leap y then 29 else 28)
  else if Z.eqb m 4 || Z.eqb m 6 || Z.eqb m 9 || Z.eqb m 11 then 30
  else 31.

(** The check of the [date] constructor: years 1 to 9999, months 1 to 12,
    and a day the month has. *)
Definition valid_date (d : date) : bool :=
  Z.leb 1 (year d) && Z.leb (year d) 9999 &&
  Z.leb 1 (month d) && Z.leb (month d) 12 &&
  Z.leb 1 (day d) && Z.leb (day d) (days_in_month (year d) (month d)).

(** [s.zfill(width)] for a string of digits. *)
Definition zfill (width : nat) (s : string) : string :=
  String.append (string_of_list_ascii (repeat "0"%char (width - String.length s))) s.

(** [d.strftime("%Y-%m-%d")] *)
Definition strftime_ymd (d : date) : string :=
  zfill 4 (str_of_int (year d)) ++ "-" ++
  zfill 2 (str_of_int (month d)) ++ "-" ++
  zfill 2 (str_of_int (day d)).

(** The regular expressions [_strptime] builds formats from: no repetition
    is needed for the directives used here. *)
Inductive regex : Type :=
| Lit (c : ascii)
| Range (lo hi : ascii)
| Cat (r1 r2 : regex)
| Alt (r1 r2 : regex)
| Group (name : string) (r : regex).

Definition captures : Type := list (string * string).

(** Backtracking match of [r] at the start of [s]: [k] receives what is left
    of [s] and the groups; alternatives are tried left to right, and the next
    one is tried when [k] fails. *)
Fixpoint re_match {X : Type} (r : regex) (s : string) (g : captures)
    (k : string -> captures -> option X) : option X :=
  match r with
  | Lit c =>
      match s with
      | String a rest => if Ascii.eqb a c then k rest g else None
      | EmptyString => None
      end
  | Range lo hi =>
      match s with
      | String a rest => if in_range (code lo) (code hi) a then k rest g else None
      | EmptyString => None
      end
  | Cat r1 r2 => re_match r1 s g (fun rest g1 => re_match r2 rest g1 k)
  | Alt r1 r2 =>
      match re_match r1 s g k with
      | Some x => Some x
      | None => re_match r2 s g k
      end
  | Group name r1 =>
      re_match r1 s g (fun rest g1 =>
        k rest ((name, String.substring 0 (String.length s - String.length rest) s) :: g1))
  end.

Definition re_digit : regex := Range "0" "9".

(** [%Y]: four digits. *)
Definition re_Y : regex :=
  Group "Y" (Cat re_digit (Cat re_digit (Cat re_digit re_digit))).

(** [%m]: [1[0-2]|0[1-9]|[1-9]] *)
Definition re_m : regex :=
  Group "m" (Alt (Cat (Lit "1") (Range "0" "2"))
            (Alt (Cat (Lit "0") (Range "1" "9"))
                 (Range "1" "9"))).

(** [%d]: [3[01]|[12]\d|0[1-9]|[1-9]| [1-9]] *)
Definition re_d : regex :=
  Group "d" (Alt (Cat (Lit "3") (Range "0" "1"))
            (Alt (Cat (Range "1" "2") re_digit)
            (Alt (Cat (Lit "0") (Range "1" "9"))
            (Alt (Range "1" "9")
                 (Cat (Lit " ") (Range "1" "9")))))).

(** The pattern of the format [%Y-%m-%d]. *)
Definition ymd_regex : regex :=
  Cat re_Y (Cat (Lit "-") (Cat re_m (Cat (Lit "-") re_d))).

Definition group (g : captures) (name : string) : string :=
  default EmptyString (snd <$> find (fun p => String.eqb (fst p) name) g).

(** [int(s)] for a captured group: blanks around the digits are skipped. *)
Definition int_of_group (s : string) : Z := digits_value 0 (strip s).

(** [datetime.strptime(s, "%Y-%m-%d")] for a [str]: the pattern must match at
    the start of [s] and leave nothing over, and the fields must make a
    date.  [None] stands for [ValueError]. *)
Definition strptime_ymd (s : string) : option date :=
  '(rest, g) ← re_match ymd_regex s [] (fun rest g => Some (rest, g));
  match rest with
  | EmptyString =>
      let d := Date (int_of_group (group g "Y")) (int_of_group (group g "m"))
                    (int_of_group (group g "d")) in
      if valid_date d then Some d else None
  | String _ _ => None
  end.

(** [datetime.strptime(v, "%Y-%m-%d")]: [TypeError] unless [v] is a [str]. *)
Definition strptime (v : value) : result date :=
  match v with
  | VStr s =>
      match strptime_ymd s with
      | Some d => Ret d
      | None => Raise (Exn ValueError "time data does not match format '%Y-%m-%d'")
      end
  | _ => Raise (Exn TypeError "strptime() argument 1 must be str")
  end.

(** ** Containment and attribute access on values *)

(** [needle in hay] for two strings. *)
Fixpoint str_contains (needle hay : string) : bool :=
  String.prefix needle hay ||
  match hay with
  | EmptyString => false
  | String _ rest => str_contains needle rest
  end.

Definition is_str (s : string) (v : value) : bool :=
  match v with
  | VStr t => String.eqb s t
  | _ => false
  end.

(** [key in v] for a string [key]: a key of a dict, an element of a list, a
    substring of a string; [TypeError] for a value that is not a container. *)
Definition py_in (key : string) (v : value) : result bool :=
  match v with
  | VDict d => Ret (bool_decide (is_Some (d !! key)))
  | VList l => Ret (existsb (is_str key) l)
  | VStr s => Ret (str_contains key s)
  | VNone | VBool _ | VInt _ | VFloat _ =>
      Raise (Exn TypeError "argument is not iterable")
  end.

(** [v.get(key)]: only a dict has the method. *)
Definition py_get (v : value) (key : string) : result value :=
  match v with
  | VDict d => Ret (dict_get d key)
  | _ => Raise (Exn AttributeError "object has no attribute 'get'")
  end.

(** [isinstance(v, (int, float))]; [bool] is a subclass of [int]. *)
Definition isinstance_int_float (v : value) : bool :=
  match v with
  | VBool _ | VInt _ | VFloat _ => true
  | _ => false
  end.

(** ** The world

    What the code reaches outside itself: the clock, the chat completion
    service, the [json] decoder, the webhook, the dicts it is handed by
    reference, and a log of what it did. *)

Record Response : Type := {
  status_code : Z;
  reason : string;
  url : string;
  text : string;
}.

Record Request : Type := {
  req_url : string;
  req_json : value;
  req_headers : list (string * string);
  req_timeout : Z;
}.

Definition message : Type := string * string.

Inductive event : Type :=
| Printed (parts : list value)
| Posted (r : Request)
| Completion (model : string) (messages : list message)
| ClockRead.

Definition ref : Type := nat.

(** - [chat model messages]: the completion call and the [content] of its
      first choice, which the API types as an optional string.
    - [json_loads s]: what the decoder of [json] does with [s]; it raises
      [JSONDecodeError] on text that is not JSON, and other exceptions on
      JSON it will not decode (a [ValueError] for an integer of more than
      4300 digits, a [RecursionError] for deep nesting).
    - [prepare r]: what requests does with a request before it looks at the
      timeout: the URL, the headers and the body are checked and encoded
      and the connection is chosen.
    - [webhook r]: the request is sent and the answer read.
    None of the four is held to a set of exception classes. *)
Record World : Type := {
  clock : date;
  chat : string -> list message -> result (option string);
  json_loads : string -> result value;
  prepare : Request -> result unit;
  webhook : Request -> result Response;
  heap : ref -> gmap string value;
  trace : list event;
}.

Definition log (e : event) (w : World) : World :=
  {| clock := clock w; chat := chat w; json_loads := json_loads w;
     prepare := prepare w; webhook := webhook w; heap := heap w;
     trace := trace w ++ [e] |}.

(** ** The monad of calls: a result and the world left behind; an exception
    keeps the effects that came before it. *)

Definition M (A : Type) : Type := World -> result A * World.

#[global] Instance M_ret : MRet M := fun A a w => (Ret a, w).

#[global] Instance M_bind : MBind M := fun A B f m w =>
  match m w with
  | (Ret a, w') => f a w'
  | (Raise e, w') => (Raise e, w')
  end.

Definition raise {A : Type} (e : exn) : M A := fun w => (Raise e, w).

Definition lift {A : Type} (r : result A) : M A := fun w => (r, w).

(** [try: body except c1 as e: h1 e except c2 as e: h2 e ...]: the first
    clause whose class the exception is an instance of handles it; with no
    such clause it goes on. *)
Fixpoint dispatch {A : Type} (handlers : list (exn_class * (exn -> M A))) (e : exn) : M A :=
  match handlers with
  | [] => raise e
  | (c, h) :: rest => if issubclass (exn_cls e) c then h e else dispatch rest e
  end.

Definition try_except {A : Type} (body : M A) (handlers : list (exn_class * (exn -> M A))) : M A :=
  fun w =>
    match body w with
    | (Ret a, w') => (Ret a, w')
    | (Raise e, w') => dispatch handlers e w'
    end.

(** A [for] loop whose body may [return]: [Some r] ends the loop and the
    function with [r]. *)
Fixpoint for_each {A R : Type} (l : list A) (body : A -> M (option R)) : M (option R) :=
  match l with
  | [] => mret None
  | x :: rest =>
      r ← body x;
      match r with
      | Some _ => mret r
      | None => for_each rest body
      end
  end.

(** [print(f"...")]: the pieces of the f-string, literal text as [VStr]. *)
Definition print (parts : list value) : M unit :=
  fun w => (Ret tt, log (Printed parts) w).

(** [datetime.now()], kept to its date. *)
Definition datetime_now : M date :=
  fun w => (Ret (clock w), log ClockRead w).

(** [json.loads(s)] *)
Definition loads (s : string) : M value :=
  fun w => (json_loads w s, w).

(** [client.chat.completions.create(model=..., messages=...)] followed by
    [.choices[0].message.content]: a string or [None]. *)
Definition chat_completions_create (model : string) (messages : list message)
    : M (option string) :=
  fun w => (chat w model messages, log (Completion model messages) w).

(** [content.strip()] on an optional string: [None] has no [strip]. *)
Definition content_strip (content : option string) : result string :=
  match content with
  | Some s => Ret (strip s)
  | None => Raise (Exn AttributeError "'NoneType' object has no attribute 'strip'")
  end.

(** The check of [urllib3.util.Timeout] on a number: 0 or less is a
    [ValueError]. *)
Definition validate_timeout (timeout : Z) : result unit :=
  if Z.leb timeout 0 then
    Raise (Exn ValueError
      ("Attempted to set connect timeout to " ++ str_of_int timeout
       ++ ", but the timeout cannot be set to a value less than or equal to 0."))
  else Ret tt.

(** [requests.post(url, json=..., headers=..., timeout=...)]: the request is
    prepared, the timeout is checked, the request is sent.  The call is
    logged as [Posted] whatever comes of it. *)
Definition requests_post (url : string) (json : value)
    (headers : list (string * string)) (timeout : Z) : M Response :=
  fun w =>
    let r := {| req_url := url; req_json := json; req_headers := headers;
                req_timeout := timeout |} in
    (match prepare w r with
     | Raise e => Raise e
     | Ret _ =>
         match validate_timeout timeout with
         | Raise e => Raise e
         | Ret _ => webhook w r
         end
     end, log (Posted r) w).

(** [response.raise_for_status()] *)
Definition raise_for_status (response : Response) : M unit :=
  let http_error_msg :=
    if Z.leb 400 (status_code response) && Z.ltb (status_code response) 500 then
      str_of_int (status_code response) ++ " Client Error: " ++ reason response
        ++ " for url: " ++ url response
    else if Z.leb 500 (status_code response) && Z.ltb (status_code response) 600 then
      str_of_int (status_code response) ++ " Server Error: " ++ reason response
        ++ " for url: " ++ url response
    else "" in
  if String.eqb http_error_msg "" then mret tt
  else raise (Exn (Requests HTTPError) http_error_msg).

(** [response.json()]: the decoded body.  requests turns a
    [json.JSONDecodeError] of the decoder into its own [JSONDecodeError], a
    subclass of it, and lets every other exception of the decoder through. *)
Definition response_json (response : Response) : M value :=
  try_except (loads (text response))
    [(JSONDecodeError, fun e =>
        raise (Exn (Requests RequestsJSONDecodeError) (exn_str e)))].

(** [key in d] and [d[key]] for a dict held by reference. *)
Definition dict_contains (d : ref) (key : string) : M bool :=
  fun w => (Ret (bool_decide (is_Some (heap w d !! key))), w).

Definition dict_getitem (d : ref) (key : string) : M value :=
  fun w =>
    match heap w d !! key with
    | Some v => (Ret v, w)
    | None => (Raise (Exn KeyError ("'" ++ key ++ "'")), w)
    end.

(** ** [src/core/text_to_ticket.py] *)

Module text_to_ticket.

(** One line of the schema in the prompt: a quoted key and a quoted type. *)
Definition schema_line (key type : string) (comma : bool) : string :=
  "        " ++ dq ++ key ++ dq ++ ": " ++ dq ++ type ++ dq
    ++ (if comma then "," else "") ++ nl.

Definition schema_prompt : string :=
  nl ++ "    You are an assistant that extracts structured insurance incident data from text." ++ nl
  ++ "    Return ONLY valid JSON following this schema:" ++ nl
  ++ "    {" ++ nl
  ++ schema_line "policyId" "string" true
  ++ schema_line "customerName" "string" true
  ++ schema_line "incidentType" "string" true
  ++ schema_line "description" "string" true
  ++ schema_line "location" "string" true
  ++ schema_line "estimatedDamage" "float (in USD)" true
  ++ schema_line "incidentDate" "YYYY-MM-DD or null" false
  ++ "    }" ++ nl
  ++ "    If a field is not mentioned, use null." ++ nl
  ++ "    ".

Definition extract_incident_info (text : string) : M value :=
  let messages :=
    [("system", schema_prompt);
     ("user", "Extract data from this text:" ++ nl ++ text)] in
  response ← chat_completions_create "gpt-4o-mini" messages;
  content ← lift (content_strip response);
  try_except (loads content)
    [(JSONDecodeError, fun _ =>
        mret (VDict {[ "error" := VStr "Invalid JSON returned"; "raw" := VStr content ]}))].

Definition create_incident_payload
    (policy_id customer_name incident_type description location
     estimated_damage incident_date : value) : M value :=
  incident_date ←
    match incident_date with
    | VNone => now ← datetime_now; mret (VStr (strftime_ymd now))
    | _ => mret incident_date
    end;
  mret (VDict {[
    "policyId" := policy_id;
    "customerName" := customer_name;
    "incidentDate" := incident_date;
    "incidentType" := incident_type;
    "description" := description;
    "location" := location;
    "estimatedDamage" := estimated_damage ]}).

Definition text_to_incident_ticket (text : string) : M value :=
  extracted ← extract_incident_info text;
  has_error ← lift (py_in "error" extracted);
  if has_error : bool then mret extracted
  else
    policy_id ← (v ← lift (py_get extracted "policyId"); mret (py_or v (VStr "UNKNOWN")));
    customer_name ← (v ← lift (py_get extracted "customerName"); mret (py_or v (VStr "UNKNOWN")));
    incident_type ← (v ← lift (py_get extracted "incidentType"); mret (py_or v (VStr "unspecified")));
    description ← (v ← lift (py_get extracted "description"); mret (py_or v (VStr "")));
    location ← (v ← lift (py_get extracted "location"); mret (py_or v (VStr "unspecified")));
    estimated_damage ←
      (v ← lift (py_get extracted "estimatedDamage");
       f ← lift (py_float (py_or v (VFloat float_zero)));
       mret (VFloat f));
    incident_date ← lift (py_get extracted "incidentDate");
    payload ← create_incident_payload policy_id customer_name incident_type
                description location estimated_damage incident_date;
    mret payload.

End text_to_ticket.

(** ** [src/core/post_to_n8n.py] *)

Module post_to_n8n.

Record N8NWebhookClient : Type := {
  webhook_url : string;
  timeout : Z;
}.

(** [N8NWebhookClient(webhook_url, timeout=30)] *)
Definition init (webhook_url : string) (timeout : option Z) : N8NWebhookClient :=
  {| webhook_url := webhook_url; timeout := default 30 timeout |}.

Definition post_incident (self : N8NWebhookClient)
    (policy_id customer_name incident_date incident_type description location
     estimated_damage : value) : M value :=
  let payload := VDict {[
    "policyId" := policy_id;
    "customerName" := customer_name;
    "incidentDate" := incident_date;
    "incidentType" := incident_type;
    "description" := description;
    "location" := location;
    "estimatedDamage" := estimated_damage ]} in
  print [VStr "[N8NWebhookClient] Posting incident to n8n webhook..."];;
  print [VStr "[N8NWebhookClient] Policy: "; policy_id; VStr ", Customer: "; customer_name];;
  try_except
    (response ← requests_post (webhook_url self) payload
                  [("Content-Type", "application/json")] (timeout self);
     raise_for_status response;;
     print [VStr "[N8NWebhookClient] ✅ Successfully posted to n8n (Status: ";
            VInt (status_code response); VStr ")"];;
     try_except
       (body ← response_json response;
        mret (VDict {[
          "success" := VBool true;
          "status_code" := VInt (status_code response);
          "response" := body ]}))
       [(JSONDecodeError, fun _ =>
           mret (VDict {[
             "success" := VBool true;
             "status_code" := VInt (status_code response);
             "response" := VStr (text response) ]}))])
    [(Requests Timeout, fun _ =>
        let error_msg := "Request timed out after " ++ str_of_int (timeout self) ++ " seconds" in
        print [VStr "[N8NWebhookClient] ❌ Error: "; VStr error_msg];;
        mret (VDict {[ "success" := VBool false; "error" := VStr error_msg ]}));
     (Requests RequestException, fun e =>
        let error_msg := "Request failed: " ++ exn_str e in
        print [VStr "[N8NWebhookClient] ❌ Error: "; VStr error_msg];;
        mret (VDict {[ "success" := VBool false; "error" := VStr error_msg ]}))].

Definition post_incident_from_dict (self : N8NWebhookClient) (incident_data : ref) : M value :=
  policy_id ← dict_getitem incident_data "policyId";
  customer_name ← dict_getitem incident_data "customerName";
  incident_date ← dict_getitem incident_data "incidentDate";
  incident_type ← dict_getitem incident_data "incidentType";
  description ← dict_getitem incident_data "description";
  location ← dict_getitem incident_data "location";
  estimated_damage ← dict_getitem incident_data "estimatedDamage";
  post_incident self policy_id customer_name incident_date incident_type
    description location estimated_damage.

Definition required_fields : list string :=
  ["policyId"; "customerName"; "incidentDate";
   "incidentType"; "description"; "location"; "estimatedDamage"].

(** The function returns a pair; [Some r] below is a [return r] reached
    inside the loop or the [try], [None] falls through to the next
    statement. *)
Definition validate_incident_data (self : N8NWebhookClient) (incident_data : ref)
    : M (bool * option string) :=
  returned ← for_each required_fields (fun field =>
    present ← dict_contains incident_data field;
    if negb present then mret (Some (false, Some ("Missing required field: " ++ field)))
    else mret None);
  match returned with
  | Some r => mret r
  | None =>
      returned ← try_except
        (incident_date ← dict_getitem incident_data "incidentDate";
         lift (strptime incident_date);;
         mret None)
        [(ValueError, fun _ =>
            mret (Some (false, Some "incidentDate must be in YYYY-MM-DD format")))];
      match returned with
      | Some r => mret r
      | None =>
          estimated_damage ← dict_getitem incident_data "estimatedDamage";
          if negb (isinstance_int_float estimated_damage) then
            mret (false, Some "estimatedDamage must be a number")
          else mret (true, None)
      end
  end.

Definition create_incident_payload
    (policy_id customer_name incident_type description location
     estimated_damage incident_date : value) : M value :=
  incident_date ←
    match incident_date with
    | VNone => now ← datetime_now; mret (VStr (strftime_ymd now))
    | _ => mret incident_date
    end;
  mret (VDict {[
    "policyId" := policy_id;
    "customerName" := customer_name;
    "incidentDate" := incident_date;
    "incidentType" := incident_type;
    "description" := description;
    "location" := location;
    "estimatedDamage" := estimated_damage ]}).

End post_to_n8n.

(** ** Shapes the specification names

    The request [post_incident] sends, the two result objects of the
    delivery contract, and when [float()] accepts a value. *)

Definition incident_request (self : post_to_n8n.N8NWebhookClient)
    (policy_id customer_name incident_date incident_type description location
     estimated_damage : value) : Request :=
  {| req_url := post_to_n8n.webhook_url self;
     req_json := VDict {[
       "policyId" := policy_id;
       "customerName" := customer_name;
       "incidentDate" := incident_date;
       "incidentType" := incident_type;
       "description" := description;
       "location" := location;
       "estimatedDamage" := estimated_damage ]};
     req_headers := [("Content-Type", "application/json")];
     req_timeout := post_to_n8n.timeout self |}.

(** [{success: true, status_code, response}] *)
Definition result_success (code : Z) (body : value) : gmap string value :=
  {[ "success" := VBool true; "status_code" := VInt code; "response" := body ]}.

(** [{success: false, error}] *)
Definition result_failure (error : string) : gmap string value :=
  {[ "success" := VBool false; "error" := VStr error ]}.

(** A client or server error status: 400 to 599. *)
Definition is_http_error (code : Z) : bool := Z.leb 400 code && Z.ltb code 600.

(** The message of the [HTTPError] that [raise_for_status] raises. *)
Definition http_error_message (response : Response) : string :=
  str_of_int (status_code response)
    ++ (if Z.ltb (status_code response) 500 then " Client Error: " else " Server Error: ")
    ++ reason response ++ " for url: " ++ url response.

(** What [requests.post] makes of a request: it returns a response or
    raises. *)
Definition post_result (w : World) (r : Request) : result Response :=
  fst (requests_post (req_url r) (req_json r) (req_headers r) (req_timeout r) w).

(** What the two [except] clauses of [post_incident] make of an exception:
    a failure result for an exception of requests, and nothing of any
    other, which goes on to the caller. *)
Definition caught (self : post_to_n8n.N8NWebhookClient) (e : exn) : result value :=
  if issubclass (exn_cls e) (Requests Timeout) then
    Ret (VDict (result_failure
      ("Request timed out after " ++ str_of_int (post_to_n8n.timeout self) ++ " seconds")))
  else if issubclass (exn_cls e) (Requests RequestException) then
    Ret (VDict (result_failure ("Request failed: " ++ exn_str e)))
  else Raise e.

(** [float(v)] returns. *)
Definition float_accepts (v : value) : bool :=
  match py_float v with
  | Ret _ => true
  | Raise _ => false
  end.

(** ** Sample inputs *)

(** [1500.0] *)
Definition float_1500 : spec_float := S754_finite false 6597069766656000 (-42).

Definition sample_text : string :=
  "Hi, this is Sarah Thompson. My policy number is PL-4829. "
  ++ "Yesterday, my car was rear-ended on Main Street in Denver. "
  ++ "The back bumper is pretty damaged, probably around $1,500 in repairs.".

Definition sample_record : gmap string value :=
  {[ "policyId" := VStr "PL-4829";
     "customerName" := VStr "Sarah Thompson";
     "incidentDate" := VStr "2024-03-15";
     "incidentType" := VStr "Auto Accident";
     "description" := VStr "Rear-ended on Main Street";
     "location" := VStr "Denver";
     "estimatedDamage" := VFloat float_1500 ]}.

Definition sample_response : Response :=
  {| status_code := 200; reason := "OK";
     url := "https://n8n.example/webhook/incident"; text := "accepted" |}.

Definition quoted (s : string) : string := dq ++ s ++ dq.

(** The body [{"ok":true}] and what it decodes to. *)
Definition ok_body : string := "{" ++ quoted "ok" ++ ":true}".

Definition ok_response : Response :=
  {| status_code := 200; reason := "OK";
     url := "https://n8n.example/webhook/incident"; text := ok_body |}.

Definition server_error_response : Response :=
  {| status_code := 500; reason := "Internal Server Error";
     url := "https://n8n.example/webhook/incident"; text := "" |}.

(** What the decoder says of text that is not JSON. *)
Definition not_json : result value :=
  Raise (Exn JSONDecodeError "Expecting value: line 1 column 1 (char 0)").

(** A decoder that knows one text. *)
Definition decodes (known : string) (v : value) (s : string) : result value :=
  if String.eqb s known then Ret v else not_json.

(** A world where every request is prepared without error and gets
    [outcome]. *)
Definition world_of (reply : result (option string)) (decode : string -> result value)
    (outcome : result Response) (record : gmap string value) : World :=
  {| clock := Date 2024 3 15; chat := fun _ _ => reply; json_loads := decode;
     prepare := fun _ => Ret tt; webhook := fun _ => outcome;
     heap := fun _ => record; trace := [] |}.

(** A world whose every reference holds [record]. *)
Definition record_world (record : gmap string value) : World :=
  world_of (Ret (Some "{}")) (fun _ => not_json) (Ret sample_response) record.

(** A world whose webhook answers every request with [outcome]. *)
Definition webhook_world (outcome : result Response) : World :=
  world_of (Ret (Some "{}")) (decodes ok_body (VDict {[ "ok" := VBool true ]})) outcome sample_record.

Definition sample_client : post_to_n8n.N8NWebhookClient :=
  post_to_n8n.init "https://n8n.example/webhook/incident" None.

(** The completion service answers with prose: not JSON. *)
Definition refusal_world : World :=
  world_of (Ret (Some "Sorry, I cannot help with that.")) (fun _ => not_json)
    (Ret sample_response) ∅.

(** The completion names only the customer; every other field is [null]. *)
Definition name_only_extract : gmap string value :=
  {[ "policyId" := VNone;
     "customerName" := VStr "Sarah Thompson";
     "incidentType" := VNone;
     "description" := VNone;
     "location" := VNone;
     "estimatedDamage" := VNone;
     "incidentDate" := VNone ]}.

Definition name_only_reply : string :=
  "{" ++ quoted "policyId" ++ ": null, "
  ++ quoted "customerName" ++ ": " ++ quoted "Sarah Thompson" ++ ", "
  ++ quoted "incidentType" ++ ": null, "
  ++ quoted "description" ++ ": null, "
  ++ quoted "location" ++ ": null, "
  ++ quoted "estimatedDamage" ++ ": null, "
  ++ quoted "incidentDate" ++ ": null}".

Definition name_only_world : World :=
  world_of (Ret (Some name_only_reply)) (decodes name_only_reply (VDict name_only_extract))
    (Ret sample_response) ∅.

(** The completion gives the damage as text with a currency sign. *)
Definition damage_text_extract : gmap string value :=
  {[ "policyId" := VStr "PL-4829";
     "customerName" := VStr "Sarah Thompson";
     "incidentType" := VStr "Auto Accident";
     "description" := VStr "Rear-ended on Main Street";
     "location" := VStr "Denver";
     "estimatedDamage" := VStr "$1,500";
     "incidentDate" := VNone ]}.

Definition damage_text_reply : string :=
  "{" ++ quoted "policyId" ++ ": " ++ quoted "PL-4829" ++ ", "
  ++ quoted "customerName" ++ ": " ++ quoted "Sarah Thompson" ++ ", "
  ++ quoted "incidentType" ++ ": " ++ quoted "Auto Accident" ++ ", "
  ++ quoted "description" ++ ": " ++ quoted "Rear-ended on Main Street" ++ ", "
  ++ quoted "location" ++ ": " ++ quoted "Denver" ++ ", "
  ++ quoted "estimatedDamage" ++ ": " ++ quoted "$1,500" ++ ", "
  ++ quoted "incidentDate" ++ ": null}".

Definition damage_text_world : World :=
  world_of (Ret (Some damage_text_reply)) (decodes damage_text_reply (VDict damage_text_extract))
    (Ret sample_response) ∅.

(** An integer of 5000 digits: JSON that CPython's decoder refuses, with a
    [ValueError] that is no [JSONDecodeError]. *)
Definition long_number : string := N.iter 5000 (String "7") "".

Definition digit_limit_error : exn :=
  Exn ValueError
    ("Exceeds the limit (4300 digits) for integer string conversion: "
     ++ "value has 5000 digits; use sys.set_int_max_str_digits() to increase the limit").

Definition long_number_response : Response :=
  {| status_code := 200; reason := "OK";
     url := "https://n8n.example/webhook/incident"; text := long_number |}.

(** The completion and the webhook both answer with [long_number]. *)
Definition long_number_world : World :=
  world_of (Ret (Some long_number))
    (fun s => if String.eqb s long_number then Raise digit_limit_error else not_json)
    (Ret long_number_response) sample_record.

(** The completion has no content. *)
Definition no_content_world : World :=
  world_of (Ret None) (fun _ => not_json) (Ret sample_response) ∅.

(** A record with all seven keys whose date is [None]. *)
Definition null_date_record : gmap string value :=
  <[ "incidentDate" := VNone ]> sample_record.

(** ** What the further properties speak of *)

(** The two messages [extract_incident_info] sends. *)
Definition extraction_messages (text : string) : list message :=
  [("system", text_to_ticket.schema_prompt);
   ("user", "Extract data from this text:" ++ nl ++ text)].

(** The error record of the extractor. *)
Definition invalid_json_record (content : string) : gmap string value :=
  {[ "error" := VStr "Invalid JSON returned"; "raw" := VStr content ]}.

(** The requests a trace holds, oldest first. *)
Definition posted (t : list event) : list Request :=
  omap (fun e => match e with Posted r => Some r | _ => None end) t.

(** The year as [strftime_ymd] prints it: four digits that read back as the
    year. *)
Definition year_prints_back (y : Z) : bool :=
  match zfill 4 (str_of_int y) with
  | String a (String b (String c (String d EmptyString))) =>
      is_digit a && is_digit b && is_digit c && is_digit d &&
      Z.eqb (int_of_group (String a (String b (String c (String d EmptyString))))) y
  | _ => false
  end.

(** The completion service is down. *)
Definition outage_world : World :=
  world_of (Raise (Exn OpenAIError "Connection error.")) (fun _ => not_json)
    (Ret sample_response) ∅.

(** The completion is a JSON array. *)
Definition array_world : World :=
  world_of (Ret (Some "[1, 2]")) (decodes "[1, 2]" (VList [VInt 1; VInt 2]))
    (Ret sample_response) ∅.

(** A record whose date and damage are both wrong. *)
Definition twice_wrong_record : gmap string value :=
  <[ "incidentDate" := VStr "13-13-2024" ]>
    (<[ "estimatedDamage" := VStr "1500" ]> sample_record).

(** A record whose date is a number. *)
Definition int_date_record : gmap string value :=
  <[ "incidentDate" := VInt 20240315 ]> sample_record.


(** ** Proof automation *)

(** A [Forall] over the keys of a concrete record, one lookup each. *)
Ltac all_fields_present :=
  repeat (apply Forall_cons; split; [eexists; reflexivity|]); apply Forall_nil_2.

(** * Properties *)

(** ** Running the monad *)

Lemma run_bind {A B : Type} (m : M A) (f : A -> M B) (w w' : World) (a : A) :
  m w = (Ret a, w') -> (m ≫= f) w = f a w'.
Proof. intros Hm. unfold mbind, M_bind. rewrite Hm. reflexivity. Qed.

Lemma run_bind_raise {A B : Type} (m : M A) (f : A -> M B) (w w' : World) (e : exn) :
  m w = (Raise e, w') -> (m ≫= f) w = (Raise e, w').
Proof. intros Hm. unfold mbind, M_bind. rewrite Hm. reflexivity. Qed.

Lemma dict_getitem_present (d : ref) (key : string) (v : value) (w : World) :
  heap w d !! key = Some v -> dict_getitem d key w = (Ret v, w).
Proof. intros H. unfold dict_getitem. rewrite H. reflexivity. Qed.

Lemma dict_getitem_missing (d : ref) (key : string) (w : World) :
  heap w d !! key = None ->
  dict_getitem d key w = (Raise (Exn KeyError ("'" ++ key ++ "'")), w).
Proof. intros H. unfold dict_getitem. rewrite H. reflexivity. Qed.

(** The loop returns at the first element whose body returns, when the
    bodies before it fall through without touching the world. *)
Lemma for_each_first {A R : Type} (body : A -> M (option R))
    (before : list A) (x : A) (after : list A) (r : R) (w : World) :
  Forall (fun y => body y w = (Ret None, w)) before ->
  body x w = (Ret (Some r), w) ->
  for_each (before ++ x :: after)%list body w = (Ret (Some r), w).
Proof.
  intros Hbefore Hx. induction Hbefore as [|y before Hy _ IH]; simpl.
  - erewrite run_bind by exact Hx. reflexivity.
  - erewrite run_bind by exact Hy. exact IH.
Qed.

Lemma for_each_none {A R : Type} (body : A -> M (option R)) (l : list A) (w : World) :
  Forall (fun y => body y w = (Ret (@None R), w)) l ->
  for_each l body w = (Ret None, w).
Proof.
  intros Hl. induction Hl as [|y l Hy _ IH]; simpl.
  - reflexivity.
  - erewrite run_bind by exact Hy. exact IH.
Qed.

(** A list with an element outside [P] splits at the first such element. *)
Lemma split_at_first {A : Type} (P : A -> Prop) (dec : forall k, Decision (P k)) (l : list A) :
  (exists k, k ∈ l /\ ~ P k) ->
  exists before k after, l = (before ++ k :: after)%list /\ Forall P before /\ ~ P k.
Proof.
  induction l as [|x l IH]; intros (k & Hin & Hk).
  - inversion Hin.
  - destruct (dec x) as [Hx|Hx].
    + destruct IH as (before & k' & after & -> & Hb & Hk').
      { exists k. split; [|exact Hk].
        apply elem_of_cons in Hin as [->|Hin]; [contradiction|exact Hin]. }
      exists (x :: before), k', after. repeat split; [constructor|]; assumption.
    + exists [], x, l. repeat split; [constructor|exact Hx].
Qed.

(** ** The validator *)

Section Validator.

Import post_to_n8n.

Variable self : N8NWebhookClient.
Variable incident_data : ref.

(** One turn of the presence loop on a key the record has. *)
Lemma presence_check_present (field : string) (w : World) :
  is_Some (heap w incident_data !! field) ->
  (present ← dict_contains incident_data field;
   if negb present
   then mret (Some (false, Some ("Missing required field: " ++ field)))
   else mret (@None (bool * option string))) w
  = (Ret None, w).
Proof.
  intros H. unfold mbind, M_bind, dict_contains.
  rewrite bool_decide_eq_true_2 by exact H. reflexivity.
Qed.

(** One turn of the presence loop on a key the record lacks. *)
Lemma presence_check_missing (field : string) (w : World) :
  heap w incident_data !! field = None ->
  (present ← dict_contains incident_data field;
   if negb present
   then mret (Some (false, Some ("Missing required field: " ++ field)))
   else mret (@None (bool * option string))) w
  = (Ret (Some (false, Some ("Missing required field: " ++ field))), w).
Proof.
  intros H. unfold mbind, M_bind, dict_contains.
  rewrite bool_decide_eq_false_2; [reflexivity|].
  rewrite H. intros [? ?]. discriminate.
Qed.

(** The validator stops at the first required key that is missing. *)
Lemma validate_missing (w : World) (before : list string) (field : string)
    (after : list string) :
  required_fields = (before ++ field :: after)%list ->
  Forall (fun k => is_Some (heap w incident_data !! k)) before ->
  heap w incident_data !! field = None ->
  validate_incident_data self incident_data w
  = (Ret (false, Some ("Missing required field: " ++ field)), w).
Proof.
  intros Hsplit Hbefore Hfield. unfold validate_incident_data. rewrite Hsplit.
  rewrite (run_bind _ _ w w (Some (false, Some ("Missing required field: " ++ field))));
    [reflexivity|].
  apply for_each_first.
  - eapply Forall_impl; [exact Hbefore|].
    intros k Hk. apply presence_check_present, Hk.
  - apply presence_check_missing, Hfield.
Qed.

(** With all seven keys present the verdict depends on the date and the
    damage alone, and an exception of [strptime] that is not a [ValueError]
    leaves the function. *)
Lemma validate_all_present (w : World) :
  Forall (fun k => is_Some (heap w incident_data !! k)) required_fields ->
  validate_incident_data self incident_data w
  = (match strptime (dict_get (heap w incident_data) "incidentDate") with
     | Ret _ =>
         Ret (if isinstance_int_float (dict_get (heap w incident_data) "estimatedDamage")
              then (true, None)
              else (false, Some "estimatedDamage must be a number"))
     | Raise e =>
         if issubclass (exn_cls e) ValueError
         then Ret (false, Some "incidentDate must be in YYYY-MM-DD format")
         else Raise e
     end, w).
Proof.
  intros Hall. unfold validate_incident_data.
  erewrite run_bind.
  2:{ apply for_each_none. eapply Forall_impl; [exact Hall|].
      intros k Hk. apply presence_check_present, Hk. }
  assert (is_Some (heap w incident_data !! "incidentDate")) as [vdate Hdate].
  { rewrite Forall_forall in Hall. apply Hall. unfold required_fields. set_solver. }
  assert (is_Some (heap w incident_data !! "estimatedDamage")) as [vdamage Hdamage].
  { rewrite Forall_forall in Hall. apply Hall. unfold required_fields. set_solver. }
  unfold dict_get. rewrite Hdate, Hdamage. simpl.
  unfold mbind, M_bind, try_except, lift.
  rewrite (dict_getitem_present _ _ _ _ Hdate).
  destruct (strptime vdate) as [dt|e]; simpl.
  - rewrite (dict_getitem_present _ _ _ _ Hdamage).
    destruct (isinstance_int_float vdamage); reflexivity.
  - destruct (issubclass (exn_cls e) ValueError); reflexivity.
Qed.

(** A date that is a string never makes the validator raise: it parses, or
    the format error is reported. *)
Lemma validate_str_date (w : World) (s : string) :
  Forall (fun k => is_Some (heap w incident_data !! k)) required_fields ->
  heap w incident_data !! "incidentDate" = Some (VStr s) ->
  validate_incident_data self incident_data w
  = (Ret match strptime_ymd s with
         | Some _ =>
             if isinstance_int_float (dict_get (heap w incident_data) "estimatedDamage")
             then (true, None)
             else (false, Some "estimatedDamage must be a number")
         | None => (false, Some "incidentDate must be in YYYY-MM-DD format")
         end, w).
Proof.
  intros Hall Hdate. rewrite validate_all_present by exact Hall.
  unfold dict_get at 1. rewrite Hdate. simpl.
  destruct (strptime_ymd s); reflexivity.
Qed.

(** A date that is not a string makes the validator raise [TypeError]. *)
Lemma validate_date_not_str (w : World) (v : value) :
  Forall (fun k => is_Some (heap w incident_data !! k)) required_fields ->
  heap w incident_data !! "incidentDate" = Some v ->
  (forall s, v <> VStr s) ->
  validate_incident_data self incident_data w
  = (Raise (Exn TypeError "strptime() argument 1 must be str"), w).
Proof.
  intros Hall Hdate Hv. rewrite validate_all_present by exact Hall.
  unfold dict_get at 1. rewrite Hdate. simpl.
  destruct v; try reflexivity. exfalso. eapply Hv. reflexivity.
Qed.

End Validator.

(** C6.  A record that lacks at least one of the seven required keys is
    rejected with [Missing required field: <key>], where [<key>] is the
    first missing key in the order of [required_fields]: every key before
    it is present.  The world is left as it was, and the answer does not
    depend on the date or the damage, which are not looked at. *)
Theorem validate_reports_first_missing_field
    (self : post_to_n8n.N8NWebhookClient) (incident_data : ref) (w : World) :
  (exists k, k ∈ post_to_n8n.required_fields /\ heap w incident_data !! k = None) ->
  exists before field after,
    post_to_n8n.required_fields = (before ++ field :: after)%list /\
    Forall (fun k => is_Some (heap w incident_data !! k)) before /\
    heap w incident_data !! field = None /\
    post_to_n8n.validate_incident_data self incident_data w
    = (Ret (false, Some ("Missing required field: " ++ field)), w).
Proof.
  intros (k & Hin & Hk).
  destruct (split_at_first (fun k => is_Some (heap w incident_data !! k)) _
              post_to_n8n.required_fields)
    as (before & field & after & Hsplit & Hbefore & Hfield).
  { exists k. split; [exact Hin|]. rewrite Hk. intros [? ?]. discriminate. }
  apply eq_None_not_Some in Hfield.
  exists before, field, after. repeat split; try assumption.
  eapply validate_missing; eassumption.
Qed.

(** C6 on a record without [incidentDate] and [estimatedDamage]. *)
Lemma validate_reports_first_missing_field_witness :
  exists before field after,
    post_to_n8n.required_fields = (before ++ field :: after)%list /\
    Forall (fun k => is_Some
      (heap (record_world (delete "estimatedDamage" (delete "incidentDate" sample_record)))
         0%nat !! k)) before /\
    heap (record_world (delete "estimatedDamage" (delete "incidentDate" sample_record)))
      0%nat !! field = None /\
    post_to_n8n.validate_incident_data sample_client 0%nat
      (record_world (delete "estimatedDamage" (delete "incidentDate" sample_record)))
    = (Ret (false, Some ("Missing required field: " ++ field)),
       record_world (delete "estimatedDamage" (delete "incidentDate" sample_record))).
Proof.
  apply validate_reports_first_missing_field.
  exists "estimatedDamage". split.
  - unfold post_to_n8n.required_fields. set_solver.
  - reflexivity.
Defined.

(** Of two missing keys the earlier one is named. *)
Example validate_names_earlier_key :
  fst (post_to_n8n.validate_incident_data sample_client 0%nat
         (record_world (delete "estimatedDamage" (delete "incidentDate" sample_record))))
  = Ret (false, Some "Missing required field: incidentDate").
Proof. vm_compute. reflexivity. Qed.

(** C7.  With all seven keys and a date that parses, the verdict is decided
    by the type of [estimatedDamage]: a value that is no [int] and no
    [float] is rejected with [estimatedDamage must be a number], an [int] or
    a [float] is accepted with [(True, None)].  Python counts [bool] as a
    subclass of [int], and so does [isinstance_int_float]. *)
Theorem validate_damage_must_be_number
    (self : post_to_n8n.N8NWebhookClient) (incident_data : ref) (w : World)
    (s : string) (parsed : date) :
  Forall (fun k => is_Some (heap w incident_data !! k)) post_to_n8n.required_fields ->
  heap w incident_data !! "incidentDate" = Some (VStr s) ->
  strptime_ymd s = Some parsed ->
  (isinstance_int_float (dict_get (heap w incident_data) "estimatedDamage") = false ->
   post_to_n8n.validate_incident_data self incident_data w
   = (Ret (false, Some "estimatedDamage must be a number"), w)) /\
  (isinstance_int_float (dict_get (heap w incident_data) "estimatedDamage") = true ->
   post_to_n8n.validate_incident_data self incident_data w
   = (Ret (true, None), w)).
Proof.
  intros Hall Hdate Hparsed.
  rewrite (validate_str_date self incident_data w s Hall Hdate), Hparsed.
  split; intros ->; reflexivity.
Qed.

(** C7 on the damage values ["1500"], [1500] and [1500.0]. *)
Lemma validate_damage_must_be_number_witness :
  fst (post_to_n8n.validate_incident_data sample_client 0%nat
         (record_world (<[ "estimatedDamage" := VStr "1500" ]> sample_record)))
  = Ret (false, Some "estimatedDamage must be a number") /\
  fst (post_to_n8n.validate_incident_data sample_client 0%nat
         (record_world (<[ "estimatedDamage" := VInt 1500 ]> sample_record)))
  = Ret (true, None) /\
  fst (post_to_n8n.validate_incident_data sample_client 0%nat
         (record_world (<[ "estimatedDamage" := VFloat float_1500 ]> sample_record)))
  = Ret (true, None).
Proof.
  split; [|split].
  - edestruct (validate_damage_must_be_number sample_client 0%nat
                 (record_world (<[ "estimatedDamage" := VStr "1500" ]> sample_record))
                 "2024-03-15" (Date 2024 3 15)) as [Hreject _].
    + all_fields_present.
    + reflexivity.
    + reflexivity.
    + rewrite Hreject; reflexivity.
  - edestruct (validate_damage_must_be_number sample_client 0%nat
                 (record_world (<[ "estimatedDamage" := VInt 1500 ]> sample_record))
                 "2024-03-15" (Date 2024 3 15)) as [_ Haccept].
    + all_fields_present.
    + reflexivity.
    + reflexivity.
    + rewrite Haccept; reflexivity.
  - edestruct (validate_damage_must_be_number sample_client 0%nat
                 (record_world (<[ "estimatedDamage" := VFloat float_1500 ]> sample_record))
                 "2024-03-15" (Date 2024 3 15)) as [_ Haccept].
    + all_fields_present.
    + reflexivity.
    + reflexivity.
    + rewrite Haccept; reflexivity.
Defined.

(** C9.  The validator leaves the world as it found it, whatever it
    answers and also when it raises: the record it was handed, every other
    dict, and the log. *)
Theorem validate_leaves_record_unchanged
    (self : post_to_n8n.N8NWebhookClient) (incident_data : ref) (w : World) :
  snd (post_to_n8n.validate_incident_data self incident_data w) = w /\
  heap (snd (post_to_n8n.validate_incident_data self incident_data w)) incident_data
  = heap w incident_data.
Proof.
  assert (snd (post_to_n8n.validate_incident_data self incident_data w) = w) as Hw.
  { destruct (decide (Forall (fun k => is_Some (heap w incident_data !! k))
                        post_to_n8n.required_fields)) as [Hall|Hsome].
    - rewrite validate_all_present by exact Hall. reflexivity.
    - apply not_Forall_Exists in Hsome; [|intros k; apply _].
      apply Exists_exists in Hsome as (k & Hin & Hk).
      destruct (split_at_first (fun k => is_Some (heap w incident_data !! k)) _
                  post_to_n8n.required_fields)
        as (before & field & after & Hsplit & Hbefore & Hfield).
      { exists k. split; assumption. }
      apply eq_None_not_Some in Hfield.
      erewrite validate_missing by eassumption. reflexivity. }
  split; [exact Hw|]. rewrite Hw. reflexivity.
Qed.

(** C2.  A record with all seven keys whose [incidentDate] is [None] (the
    extractor's schema allows [null] there) makes the validator raise
    [TypeError]: [strptime] wants a [str], and only [ValueError] is caught. *)
Theorem validate_raises_on_null_date :
  Forall (fun k => is_Some (null_date_record !! k)) post_to_n8n.required_fields /\
  post_to_n8n.validate_incident_data sample_client 0%nat (record_world null_date_record)
  = (Raise (Exn TypeError "strptime() argument 1 must be str"),
     record_world null_date_record).
Proof.
  split; [all_fields_present|].
  apply (validate_date_not_str sample_client 0%nat (record_world null_date_record) VNone).
  - all_fields_present.
  - reflexivity.
  - discriminate.
Qed.

(** The dates the specification tests: month 13 is rejected with the format
    error, an ISO date is accepted. *)
Example validate_rejects_13_13_2024 :
  fst (post_to_n8n.validate_incident_data sample_client 0%nat
         (record_world (<[ "incidentDate" := VStr "13-13-2024" ]> sample_record)))
  = Ret (false, Some "incidentDate must be in YYYY-MM-DD format").
Proof. vm_compute. reflexivity. Qed.

Example validate_accepts_2024_03_15 :
  fst (post_to_n8n.validate_incident_data sample_client 0%nat (record_world sample_record))
  = Ret (true, None).
Proof. vm_compute. reflexivity. Qed.

(** ** The delivery client *)

(** Both [except] clauses together catch whatever requests itself raises. *)
Lemma requests_exn_caught (c : requests_exn) :
  issubclass (Requests c) (Requests RequestException) = true.
Proof. destruct c; reflexivity. Qed.

(** The timeouts among the exceptions of requests. *)
Lemma timeout_classes (c : requests_exn) :
  issubclass (Requests c) (Requests Timeout) = true <->
  c = Timeout \/ c = ConnectTimeout \/ c = ReadTimeout.
Proof.
  split.
  - destruct c; vm_compute; intros H; try discriminate H; auto.
  - intros [-> | [-> | ->]]; reflexivity.
Qed.


Lemma append_nonempty (a b : string) : b <> "" -> String.eqb (a ++ b) "" = false.
Proof.
  intros Hb. destruct a as [|c a]; simpl.
  - destruct b; [contradiction|reflexivity].
  - reflexivity.
Qed.

Lemma raise_for_status_ok (response : Response) (w : World) :
  is_http_error (status_code response) = false ->
  raise_for_status response w = (Ret tt, w).
Proof.
  unfold is_http_error, raise_for_status. intros H.
  destruct (Z.leb_spec 400 (status_code response)),
    (Z.ltb_spec (status_code response) 500),
    (Z.leb_spec 500 (status_code response)),
    (Z.ltb_spec (status_code response) 600);
    simpl in *; try reflexivity; try lia; discriminate.
Qed.

Lemma raise_for_status_error (response : Response) (w : World) :
  is_http_error (status_code response) = true ->
  raise_for_status response w
  = (Raise (Exn (Requests HTTPError) (http_error_message response)), w).
Proof.
  unfold is_http_error, raise_for_status, http_error_message. intros H.
  apply andb_true_iff in H as [H1 H2]. rewrite H1. simpl.
  destruct (Z.ltb_spec (status_code response) 500); simpl.
  - rewrite append_nonempty by discriminate. reflexivity.
  - destruct (Z.leb_spec 500 (status_code response)); [|lia]. rewrite H2. simpl.
    rewrite append_nonempty by discriminate. reflexivity.
Qed.

(** [requests.post] changes the world by its log entry only, and what it
    answers does not depend on the log. *)
Lemma requests_post_run (url : string) (json : value) (headers : list (string * string))
    (timeout : Z) (w : World) :
  requests_post url json headers timeout w
  = (post_result w {| req_url := url; req_json := json; req_headers := headers;
                      req_timeout := timeout |},
     log (Posted {| req_url := url; req_json := json; req_headers := headers;
                    req_timeout := timeout |}) w).
Proof. reflexivity. Qed.

Lemma post_result_log (e : event) (w : World) (r : Request) :
  post_result (log e w) r = post_result w r.
Proof. reflexivity. Qed.

(** [response.json()], by what the decoder does. *)
Lemma response_json_run (response : Response) (w : World) :
  response_json response w
  = (match json_loads w (text response) with
     | Ret body => Ret body
     | Raise e =>
         if issubclass (exn_cls e) JSONDecodeError
         then Raise (Exn (Requests RequestsJSONDecodeError) (exn_str e))
         else Raise e
     end, w).
Proof.
  unfold response_json, try_except, loads.
  destruct (json_loads w (text response)) as [body|e]; [reflexivity|].
  cbn [dispatch]. destruct (issubclass (exn_cls e) JSONDecodeError); reflexivity.
Qed.

(** The two [except] clauses of [post_incident], as [caught] has them. *)
Lemma dispatch_caught (self : post_to_n8n.N8NWebhookClient) (e : exn) (w : World) :
  fst (dispatch
    [(Requests Timeout, fun _ =>
        let error_msg := "Request timed out after "
                         ++ str_of_int (post_to_n8n.timeout self) ++ " seconds" in
        print [VStr "[N8NWebhookClient] ❌ Error: "; VStr error_msg];;
        mret (VDict {[ "success" := VBool false; "error" := VStr error_msg ]}));
     (Requests RequestException, fun e =>
        let error_msg := "Request failed: " ++ exn_str e in
        print [VStr "[N8NWebhookClient] ❌ Error: "; VStr error_msg];;
        mret (VDict {[ "success" := VBool false; "error" := VStr error_msg ]}))] e w)
  = caught self e.
Proof.
  unfold caught. cbn [dispatch].
  destruct (issubclass (exn_cls e) (Requests Timeout)); [reflexivity|].
  destruct (issubclass (exn_cls e) (Requests RequestException)); reflexivity.
Qed.

(** What [post_incident] returns or raises, by what [requests.post] and the
    decoder did. *)
Lemma post_incident_value (self : post_to_n8n.N8NWebhookClient)
    (policy_id customer_name incident_date incident_type description location
     estimated_damage : value) (w : World) :
  fst (post_to_n8n.post_incident self policy_id customer_name incident_date
         incident_type description location estimated_damage w)
  = match post_result w (incident_request self policy_id customer_name incident_date
                           incident_type description location estimated_damage) with
    | Ret response =>
        if is_http_error (status_code response)
        then Ret (VDict (result_failure ("Request failed: " ++ http_error_message response)))
        else
          match json_loads w (text response) with
          | Ret body => Ret (VDict (result_success (status_code response) body))
          | Raise e =>
              if issubclass (exn_cls e) JSONDecodeError
              then Ret (VDict (result_success (status_code response) (VStr (text response))))
              else caught self e
          end
    | Raise e => caught self e
    end.
Proof.
  unfold post_to_n8n.post_incident, incident_request.
  unfold mbind at 1 2, M_bind at 1 2, print at 1 2.
  unfold try_except at 1. unfold mbind at 1, M_bind at 1.
  rewrite requests_post_run, !post_result_log.
  match goal with
  | |- context [post_result w ?r] => destruct (post_result w r) as [response|e]
  end.
  - destruct (is_http_error (status_code response)) eqn:Herr.
    + unfold mbind at 1, M_bind at 1. rewrite raise_for_status_error by exact Herr.
      reflexivity.
    + unfold mbind at 1, M_bind at 1. rewrite raise_for_status_ok by exact Herr.
      unfold mbind at 1, M_bind at 1, print at 1.
      unfold try_except at 1. unfold mbind at 1, M_bind at 1.
      rewrite response_json_run. cbn [json_loads log].
      destruct (json_loads w (text response)) as [body|e]; [reflexivity|].
      destruct (issubclass (exn_cls e) JSONDecodeError) eqn:Hjson.
      * cbn [dispatch exn_cls].
        replace (issubclass (Requests RequestsJSONDecodeError) JSONDecodeError)
          with true by reflexivity.
        reflexivity.
      * cbn [dispatch]. rewrite Hjson. cbn [dispatch raise].
        apply dispatch_caught.
  - apply dispatch_caught.
Qed.

(** The three result shapes exclude one another. *)
Lemma result_shapes_distinct (code : Z) (body : value) (error : string)
    (seconds details : string) :
  result_success code body <> result_failure error /\
  result_failure ("Request timed out after " ++ seconds)
  <> result_failure ("Request failed: " ++ details).
Proof.
  split; intros H.
  - apply (f_equal (fun m => m !! "success")) in H.
    unfold result_success, result_failure in H.
    rewrite !lookup_insert_eq in H. discriminate H.
  - apply (f_equal (fun m => m !! "error")) in H.
    unfold result_failure in H.
    rewrite lookup_insert_ne, !lookup_singleton_eq in H by discriminate.
    discriminate H.
Qed.




(** A 200 whose body is an integer of 5000 digits: the decoder raises a
    [ValueError] that is no [JSONDecodeError], and it leaves
    [post_incident]. *)
Example post_incident_raises_on_long_number :
  fst (post_to_n8n.post_incident sample_client (VStr "PL-4829") (VStr "Sarah Thompson")
         (VStr "2024-03-15") (VStr "Auto Accident") (VStr "Rear-ended on Main Street")
         (VStr "Denver") (VFloat float_1500) long_number_world)
  = Raise digit_limit_error.
Proof. rewrite post_incident_value. vm_compute. reflexivity. Qed.

(** An endpoint that stalls past the timeout, with the default of 30. *)
Example post_incident_timeout :
  fst (post_to_n8n.post_incident sample_client (VStr "PL-4829") (VStr "Sarah Thompson")
         (VStr "2024-03-15") (VStr "Auto Accident") (VStr "Rear-ended on Main Street")
         (VStr "Denver") (VFloat float_1500)
         (webhook_world (Raise (Exn (Requests ReadTimeout) "Read timed out. (read timeout=30)"))))
  = Ret (VDict (result_failure "Request timed out after 30 seconds")).
Proof. rewrite post_incident_value. reflexivity. Qed.

(** An endpoint that answers 500. *)
Example post_incident_server_error :
  fst (post_to_n8n.post_incident sample_client (VStr "PL-4829") (VStr "Sarah Thompson")
         (VStr "2024-03-15") (VStr "Auto Accident") (VStr "Rear-ended on Main Street")
         (VStr "Denver") (VFloat float_1500)
         (webhook_world (Ret server_error_response)))
  = Ret (VDict (result_failure
      ("Request failed: 500 Server Error: Internal Server Error "
       ++ "for url: https://n8n.example/webhook/incident"))).
Proof. rewrite post_incident_value. reflexivity. Qed.

(** A 200 whose body is not JSON: the text comes back. *)
Example post_incident_text_body :
  fst (post_to_n8n.post_incident sample_client (VStr "PL-4829") (VStr "Sarah Thompson")
         (VStr "2024-03-15") (VStr "Auto Accident") (VStr "Rear-ended on Main Street")
         (VStr "Denver") (VFloat float_1500)
         (webhook_world (Ret sample_response)))
  = Ret (VDict (result_success 200 (VStr "accepted"))).
Proof. rewrite post_incident_value. reflexivity. Qed.

(** C8.  For a record with the seven keys, [post_incident_from_dict] is
    [post_incident] on the seven values: same result, same world after. *)
Theorem post_incident_from_dict_equiv
    (self : post_to_n8n.N8NWebhookClient) (incident_data : ref) (w : World) :
  Forall (fun k => is_Some (heap w incident_data !! k)) post_to_n8n.required_fields ->
  post_to_n8n.post_incident_from_dict self incident_data w
  = post_to_n8n.post_incident self
      (dict_get (heap w incident_data) "policyId")
      (dict_get (heap w incident_data) "customerName")
      (dict_get (heap w incident_data) "incidentDate")
      (dict_get (heap w incident_data) "incidentType")
      (dict_get (heap w incident_data) "description")
      (dict_get (heap w incident_data) "location")
      (dict_get (heap w incident_data) "estimatedDamage") w.
Proof.
  intros Hall.
  assert (forall k, k ∈ post_to_n8n.required_fields ->
                    is_Some (heap w incident_data !! k)) as Hk
    by (apply Forall_forall, Hall).
  unfold post_to_n8n.required_fields in Hk.
  destruct (Hk "policyId") as [v1 H1]; [set_solver|].
  destruct (Hk "customerName") as [v2 H2]; [set_solver|].
  destruct (Hk "incidentDate") as [v3 H3]; [set_solver|].
  destruct (Hk "incidentType") as [v4 H4]; [set_solver|].
  destruct (Hk "description") as [v5 H5]; [set_solver|].
  destruct (Hk "location") as [v6 H6]; [set_solver|].
  destruct (Hk "estimatedDamage") as [v7 H7]; [set_solver|].
  unfold post_to_n8n.post_incident_from_dict, dict_get.
  rewrite H1, H2, H3, H4, H5, H6, H7. simpl.
  repeat (erewrite run_bind by (apply dict_getitem_present; eassumption)).
  reflexivity.
Qed.

(** C8 on the sample record. *)
Lemma post_incident_from_dict_equiv_witness :
  post_to_n8n.post_incident_from_dict sample_client 0%nat
    (webhook_world (Ret ok_response))
  = post_to_n8n.post_incident sample_client (VStr "PL-4829") (VStr "Sarah Thompson")
      (VStr "2024-03-15") (VStr "Auto Accident") (VStr "Rear-ended on Main Street")
      (VStr "Denver") (VFloat float_1500) (webhook_world (Ret ok_response)).
Proof.
  apply (post_incident_from_dict_equiv sample_client 0%nat
           (webhook_world (Ret ok_response))).
  all_fields_present.
Defined.

(** C10.  On a dict that lacks one of the seven keys,
    [post_incident_from_dict] raises [KeyError] for the first missing key in
    the order the keys are read, which is the order of [required_fields].
    The world is as before: nothing was printed and nothing was posted. *)
Theorem post_incident_from_dict_missing_key
    (self : post_to_n8n.N8NWebhookClient) (incident_data : ref) (w : World) :
  (exists k, k ∈ post_to_n8n.required_fields /\ heap w incident_data !! k = None) ->
  exists before field after,
    post_to_n8n.required_fields = (before ++ field :: after)%list /\
    Forall (fun k => is_Some (heap w incident_data !! k)) before /\
    heap w incident_data !! field = None /\
    post_to_n8n.post_incident_from_dict self incident_data w
    = (Raise (Exn KeyError ("'" ++ field ++ "'")), w).
Proof.
  intros Hmissing.
  destruct (split_at_first (fun k => is_Some (heap w incident_data !! k)) _
              post_to_n8n.required_fields)
    as (before & field & after & Hsplit & Hbefore & Hfield).
  { destruct Hmissing as (k & Hin & Hk). exists k. split; [exact Hin|].
    rewrite Hk. intros [? ?]. discriminate. }
  apply eq_None_not_Some in Hfield.
  exists before, field, after. repeat split; try assumption.
  unfold post_to_n8n.post_incident_from_dict.
  unfold post_to_n8n.required_fields in Hsplit.
  repeat (destruct before as [|? before];
    [ injection Hsplit as <- _;
      first [ apply dict_getitem_missing; exact Hfield
            | apply run_bind_raise, dict_getitem_missing; exact Hfield ]
    | let Hp := fresh "Hp" in
      injection Hsplit as <- Hsplit;
      apply Forall_cons in Hbefore as [[? Hp] Hbefore];
      erewrite run_bind by (apply dict_getitem_present; exact Hp) ]).
  destruct before; discriminate Hsplit.
Qed.

(** C10 on a record without [incidentType] and [location]. *)
Lemma post_incident_from_dict_missing_key_witness :
  exists before field after,
    post_to_n8n.required_fields = (before ++ field :: after)%list /\
    Forall (fun k => is_Some
      (heap (record_world (delete "location" (delete "incidentType" sample_record)))
         0%nat !! k)) before /\
    heap (record_world (delete "location" (delete "incidentType" sample_record)))
      0%nat !! field = None /\
    post_to_n8n.post_incident_from_dict sample_client 0%nat
      (record_world (delete "location" (delete "incidentType" sample_record)))
    = (Raise (Exn KeyError ("'" ++ field ++ "'")),
       record_world (delete "location" (delete "incidentType" sample_record))).
Proof.
  apply post_incident_from_dict_missing_key.
  exists "location". split.
  - unfold post_to_n8n.required_fields. set_solver.
  - reflexivity.
Defined.

(** Of two missing keys the earlier one is in the [KeyError]; the log stays
    empty. *)
Example post_incident_from_dict_names_earlier_key :
  post_to_n8n.post_incident_from_dict sample_client 0%nat
    (record_world (delete "location" (delete "incidentType" sample_record)))
  = (Raise (Exn KeyError "'incidentType'"),
     record_world (delete "location" (delete "incidentType" sample_record))).
Proof. reflexivity. Qed.

(** ** The record builder and the pipeline *)

Lemma py_or_truthy (a b : value) : truthy a = true -> py_or a b = a.
Proof. unfold py_or. intros ->. reflexivity. Qed.

Lemma py_or_falsy (a b : value) : truthy a = false -> py_or a b = b.
Proof. unfold py_or. intros ->. reflexivity. Qed.

(** [a or b] is not [None] when [b] is not. *)
Lemma py_or_not_none (a b : value) : b <> VNone -> py_or a b <> VNone.
Proof.
  intros Hb. unfold py_or. destruct (truthy a) eqn:Ha; [|exact Hb].
  intros ->. discriminate Ha.
Qed.

(** The values the fallbacks replace: a missing key, [null] and the empty
    string are all false. *)
Lemma null_and_empty_are_falsy (d : gmap string value) (key : string) :
  (d !! key = None -> truthy (dict_get d key) = false) /\
  (d !! key = Some VNone -> truthy (dict_get d key) = false) /\
  (d !! key = Some (VStr "") -> truthy (dict_get d key) = false).
Proof. unfold dict_get. repeat split; intros ->; reflexivity. Qed.

(** Which values [float()] turns into a float. *)
Lemma float_accepts_cases (v : value) :
  float_accepts v =
  match v with
  | VBool _ | VFloat _ => true
  | VInt z =>
      match binary_normalize 53 1024 z 0 false with
      | S754_infinity _ => false
      | _ => true
      end
  | VStr s => bool_decide (is_Some (float_of_str s))
  | VNone | VList _ | VDict _ => false
  end.
Proof.
  unfold float_accepts. destruct v as [|b|z|f|s|l|d]; simpl; try reflexivity.
  - unfold float_of_int. destruct (binary_normalize 53 1024 z 0 false); reflexivity.
  - destruct (float_of_str s); reflexivity.
Qed.

(** The builder, by its date argument. *)
Lemma create_incident_payload_run
    (policy_id customer_name incident_type description location estimated_damage
     incident_date : value) (w : World) :
  text_to_ticket.create_incident_payload policy_id customer_name incident_type
    description location estimated_damage incident_date w
  = (Ret (VDict {[
       "policyId" := policy_id;
       "customerName" := customer_name;
       "incidentDate" := match incident_date with
                         | VNone => VStr (strftime_ymd (clock w))
                         | _ => incident_date
                         end;
       "incidentType" := incident_type;
       "description" := description;
       "location" := location;
       "estimatedDamage" := estimated_damage ]}),
     match incident_date with
     | VNone => log ClockRead w
     | _ => w
     end).
Proof. destruct incident_date; reflexivity. Qed.

(** The two copies of the builder are the same function. *)
Lemma create_incident_payload_copies
    (policy_id customer_name incident_type description location estimated_damage
     incident_date : value) (w : World) :
  post_to_n8n.create_incident_payload policy_id customer_name incident_type
    description location estimated_damage incident_date w
  = text_to_ticket.create_incident_payload policy_id customer_name incident_type
      description location estimated_damage incident_date w.
Proof. reflexivity. Qed.

(** C5.  Both copies of [create_incident_payload] return the same record.
    Its [incidentDate] is the date that was passed when that is not [None],
    and the clock's date as year-month-day when it is [None], which is also
    what Python passes when the argument is left out.  The six other fields
    are the arguments under the camel-case keys, and there is no eighth key. *)
Theorem create_incident_payload_date
    (policy_id customer_name incident_type description location estimated_damage
     incident_date : value) (w : World) :
  exists payload w',
    text_to_ticket.create_incident_payload policy_id customer_name incident_type
      description location estimated_damage incident_date w = (Ret (VDict payload), w') /\
    post_to_n8n.create_incident_payload policy_id customer_name incident_type
      description location estimated_damage incident_date w = (Ret (VDict payload), w') /\
    (incident_date <> VNone -> payload !! "incidentDate" = Some incident_date) /\
    (incident_date = VNone ->
     payload !! "incidentDate" = Some (VStr (strftime_ymd (clock w)))) /\
    payload !! "policyId" = Some policy_id /\
    payload !! "customerName" = Some customer_name /\
    payload !! "incidentType" = Some incident_type /\
    payload !! "description" = Some description /\
    payload !! "location" = Some location /\
    payload !! "estimatedDamage" = Some estimated_damage /\
    dom payload = list_to_set post_to_n8n.required_fields.
Proof.
  eexists _, _. split; [apply create_incident_payload_run|].
  split; [rewrite create_incident_payload_copies; apply create_incident_payload_run|].
  split; [|split].
  - intros Hdate. rewrite lookup_insert_ne, lookup_insert_ne by discriminate.
    rewrite lookup_insert_eq. destruct incident_date; [contradiction|reflexivity..].
  - intros ->. rewrite lookup_insert_ne, lookup_insert_ne by discriminate.
    rewrite lookup_insert_eq. reflexivity.
  - repeat (split; [by simplify_map_eq|]).
    rewrite !dom_insert_L, dom_singleton_L. unfold post_to_n8n.required_fields.
    set_solver.
Qed.

(** C5 without a date and with one. *)
Lemma create_incident_payload_date_witness :
  fst (text_to_ticket.create_incident_payload (VStr "PL-4829") (VStr "Sarah Thompson")
         (VStr "Auto Accident") (VStr "Rear-ended on Main Street") (VStr "Denver")
         (VFloat float_1500) VNone (record_world ∅))
  = Ret (VDict (<[ "incidentDate" := VStr "2024-03-15" ]> sample_record)) /\
  fst (post_to_n8n.create_incident_payload (VStr "PL-4829") (VStr "Sarah Thompson")
         (VStr "Auto Accident") (VStr "Rear-ended on Main Street") (VStr "Denver")
         (VFloat float_1500) (VStr "2023-12-31") (record_world ∅))
  = Ret (VDict (<[ "incidentDate" := VStr "2023-12-31" ]> sample_record)).
Proof.
  split.
  - destruct (create_incident_payload_date (VStr "PL-4829") (VStr "Sarah Thompson")
                (VStr "Auto Accident") (VStr "Rear-ended on Main Street") (VStr "Denver")
                (VFloat float_1500) VNone (record_world ∅))
      as (payload & w' & Hrun & _).
    rewrite Hrun. rewrite create_incident_payload_run in Hrun.
    injection Hrun as <- _. reflexivity.
  - destruct (create_incident_payload_date (VStr "PL-4829") (VStr "Sarah Thompson")
                (VStr "Auto Accident") (VStr "Rear-ended on Main Street") (VStr "Denver")
                (VFloat float_1500) (VStr "2023-12-31") (record_world ∅))
      as (payload & w' & _ & Hrun & _).
    rewrite Hrun. rewrite create_incident_payload_copies, create_incident_payload_run in Hrun.
    injection Hrun as <- _. reflexivity.
Defined.

(** C4.  When the extractor returns an object with the key [error], the
    pipeline returns that object, and the world is the one the extractor
    left: nothing runs after the extraction, so the clock is not read and no
    record is built. *)
Theorem ticket_error_short_circuit (text : string) (w : World)
    (d : gmap string value) (w1 : World) :
  text_to_ticket.extract_incident_info text w = (Ret (VDict d), w1) ->
  is_Some (d !! "error") ->
  text_to_ticket.text_to_incident_ticket text w = (Ret (VDict d), w1).
Proof.
  intros Hextract Herror. unfold text_to_ticket.text_to_incident_ticket.
  erewrite run_bind by exact Hextract.
  unfold mbind, M_bind, lift, py_in.
  rewrite bool_decide_eq_true_2 by exact Herror. reflexivity.
Qed.

(** C4 on a completion that is prose: the extractor's own error object
    comes back. *)
Lemma ticket_error_short_circuit_witness :
  text_to_ticket.text_to_incident_ticket sample_text refusal_world
  = (Ret (VDict {[ "error" := VStr "Invalid JSON returned";
                   "raw" := VStr "Sorry, I cannot help with that." ]}),
     snd (text_to_ticket.extract_incident_info sample_text refusal_world)).
Proof.
  apply (ticket_error_short_circuit sample_text refusal_world).
  - reflexivity.
  - eexists. reflexivity.
Defined.

(** The pipeline on an object without the key [error]: the fallbacks, the
    coercion of the damage, then the builder. *)
Lemma ticket_of_record (text : string) (w : World) (d : gmap string value) (w1 : World) :
  text_to_ticket.extract_incident_info text w = (Ret (VDict d), w1) ->
  d !! "error" = None ->
  text_to_ticket.text_to_incident_ticket text w
  = match py_float (py_or (dict_get d "estimatedDamage") (VFloat float_zero)) with
    | Ret damage =>
        text_to_ticket.create_incident_payload
          (py_or (dict_get d "policyId") (VStr "UNKNOWN"))
          (py_or (dict_get d "customerName") (VStr "UNKNOWN"))
          (py_or (dict_get d "incidentType") (VStr "unspecified"))
          (py_or (dict_get d "description") (VStr ""))
          (py_or (dict_get d "location") (VStr "unspecified"))
          (VFloat damage)
          (dict_get d "incidentDate") w1
    | Raise e => (Raise e, w1)
    end.
Proof.
  intros Hextract Herror. unfold text_to_ticket.text_to_incident_ticket.
  erewrite run_bind by exact Hextract.
  unfold mbind at 1, M_bind at 1, lift at 1, py_in.
  rewrite bool_decide_eq_false_2 by (rewrite Herror; intros [? ?]; discriminate).
  unfold py_get, lift, mbind, M_bind, mret, M_ret.
  destruct (py_float _) as [damage|e]; [|reflexivity].
  unfold text_to_ticket.create_incident_payload, mbind, M_bind, mret, M_ret.
  destruct (dict_get d "incidentDate"); reflexivity.
Qed.

(** C1, as the code has it.  When the extractor returns an object without
    the key [error] whose [estimatedDamage] is false (missing, [null], zero,
    empty) or something [float()] accepts, the pipeline returns a record
    with exactly the seven keys, none of them [None]:
    - [policyId], [customerName], [incidentType], [description] and
      [location] are the extracted value when it is true, and otherwise
      ["UNKNOWN"], ["UNKNOWN"], ["unspecified"], [""] and ["unspecified"];
    - [estimatedDamage] is the float of the extracted value, [0.0] when that
      value is false;
    - [incidentDate] is the extracted value unless it is missing or [null],
      and then the clock's date as year-month-day. *)
Theorem ticket_fields_populated (text : string) (w : World)
    (d : gmap string value) (w1 : World) :
  text_to_ticket.extract_incident_info text w = (Ret (VDict d), w1) ->
  d !! "error" = None ->
  truthy (dict_get d "estimatedDamage") = false \/
    float_accepts (dict_get d "estimatedDamage") = true ->
  exists payload damage w2,
    text_to_ticket.text_to_incident_ticket text w = (Ret (VDict payload), w2) /\
    dom payload = list_to_set post_to_n8n.required_fields /\
    (forall k v, payload !! k = Some v -> v <> VNone) /\
    payload !! "policyId" = Some (py_or (dict_get d "policyId") (VStr "UNKNOWN")) /\
    payload !! "customerName" = Some (py_or (dict_get d "customerName") (VStr "UNKNOWN")) /\
    payload !! "incidentType"
      = Some (py_or (dict_get d "incidentType") (VStr "unspecified")) /\
    payload !! "description" = Some (py_or (dict_get d "description") (VStr "")) /\
    payload !! "location" = Some (py_or (dict_get d "location") (VStr "unspecified")) /\
    payload !! "estimatedDamage" = Some (VFloat damage) /\
    (truthy (dict_get d "estimatedDamage") = false -> damage = float_zero) /\
    (truthy (dict_get d "estimatedDamage") = true ->
     py_float (dict_get d "estimatedDamage") = Ret damage) /\
    (dict_get d "incidentDate" = VNone ->
     payload !! "incidentDate" = Some (VStr (strftime_ymd (clock w1)))) /\
    (dict_get d "incidentDate" <> VNone ->
     payload !! "incidentDate" = Some (dict_get d "incidentDate")).
Proof.
  intros Hextract Herror Hdamage.
  rewrite (ticket_of_record text w d w1 Hextract Herror).
  assert (exists damage,
            py_float (py_or (dict_get d "estimatedDamage") (VFloat float_zero)) = Ret damage /\
            (truthy (dict_get d "estimatedDamage") = false -> damage = float_zero) /\
            (truthy (dict_get d "estimatedDamage") = true ->
             py_float (dict_get d "estimatedDamage") = Ret damage))
    as (damage & Hfloat & Hzero & Hconv).
  { destruct (truthy (dict_get d "estimatedDamage")) eqn:Htruthy.
    - destruct Hdamage as [Hfalse|Haccepts]; [discriminate Hfalse|].
      rewrite py_or_truthy by exact Htruthy. unfold float_accepts in Haccepts.
      destruct (py_float (dict_get d "estimatedDamage")) as [damage|e];
        [|discriminate Haccepts].
      exists damage. repeat split; congruence.
    - rewrite py_or_falsy by exact Htruthy.
      exists float_zero. repeat split; congruence. }
  rewrite Hfloat, create_incident_payload_run.
  eexists _, damage, _. split; [reflexivity|].
  split.
  { rewrite !dom_insert_L, dom_singleton_L. unfold post_to_n8n.required_fields.
    set_solver. }
  split.
  { intros k v Hk.
    repeat (apply lookup_insert_Some in Hk as [[_ <-]|[_ Hk]];
            [try (apply py_or_not_none; discriminate)|]).
    - destruct (dict_get d "incidentDate"); discriminate.
    - apply lookup_singleton_Some in Hk as [_ <-]. discriminate. }
  repeat split; try (by simplify_map_eq); try assumption.
  - intros ->. by simplify_map_eq.
  - intros Hdate. rewrite lookup_insert_ne, lookup_insert_ne by discriminate.
    rewrite lookup_insert_eq. destruct (dict_get d "incidentDate");
      [contradiction|reflexivity..].
Qed.

(** C1 on an extraction with every field [null] but the customer's name:
    the record of the specification's third testable property. *)
Lemma ticket_fields_populated_witness :
  exists w2,
    text_to_ticket.text_to_incident_ticket sample_text name_only_world
    = (Ret (VDict {[
         "policyId" := VStr "UNKNOWN";
         "customerName" := VStr "Sarah Thompson";
         "incidentDate" := VStr "2024-03-15";
         "incidentType" := VStr "unspecified";
         "description" := VStr "";
         "location" := VStr "unspecified";
         "estimatedDamage" := VFloat float_zero ]}), w2).
Proof.
  destruct (ticket_fields_populated sample_text name_only_world name_only_extract
              (snd (text_to_ticket.extract_incident_info sample_text name_only_world)))
    as (payload & damage & w2 & Hrun & _).
  - reflexivity.
  - reflexivity.
  - left. reflexivity.
  - exists w2. rewrite Hrun.
    rewrite (ticket_of_record sample_text name_only_world name_only_extract
               (snd (text_to_ticket.extract_incident_info sample_text name_only_world))
               eq_refl eq_refl) in Hrun.
    injection Hrun as <- _. reflexivity.
Defined.

(** C1 as stated fails: the extractor returns an object without the key
    [error], here with the damage as the text [$1,500], and the pipeline
    raises [ValueError] instead of returning a record. *)
Lemma ticket_raises_on_damage_text :
  text_to_ticket.extract_incident_info sample_text damage_text_world
  = (Ret (VDict damage_text_extract),
     snd (text_to_ticket.extract_incident_info sample_text damage_text_world)) /\
  damage_text_extract !! "error" = None /\
  text_to_ticket.text_to_incident_ticket sample_text damage_text_world
  = (Raise (Exn ValueError "could not convert string to float"),
     snd (text_to_ticket.extract_incident_info sample_text damage_text_world)).
Proof.
  split; [reflexivity|]. split; [reflexivity|].
  rewrite (ticket_of_record sample_text damage_text_world damage_text_extract
             (snd (text_to_ticket.extract_incident_info sample_text damage_text_world))
             eq_refl eq_refl).
  reflexivity.
Qed.

(** Other damages the pipeline raises on: a list, and an integer beyond the
    range of a float. *)
Example float_rejects :
  float_accepts (VStr "$1,500") = false /\
  float_accepts (VStr "about 1500") = false /\
  float_accepts (VList [VInt 1500]) = false /\
  float_accepts (VInt (2 ^ 1024)) = false /\
  float_accepts (VStr "1500") = true /\
  float_accepts (VStr " 1_500.50 ") = true /\
  float_accepts (VInt 1500) = true /\
  float_accepts (VBool true) = true.
Proof. vm_compute. repeat split. Qed.

(** The record the pipeline builds from the name-only extraction, handed to
    the validator: all seven keys are there, the date is the clock's and
    parses, and the damage is a float. *)
Example pipeline_record_validates :
  exists payload,
    fst (text_to_ticket.text_to_incident_ticket sample_text name_only_world)
    = Ret (VDict payload) /\
    fst (post_to_n8n.validate_incident_data sample_client 0%nat (record_world payload))
    = Ret (true, None).
Proof.
  eexists. split.
  - rewrite (ticket_of_record sample_text name_only_world name_only_extract
               (snd (text_to_ticket.extract_incident_info sample_text name_only_world))
               eq_refl eq_refl).
    reflexivity.
  - vm_compute. reflexivity.
Qed.

(** * Further properties *)

(** ** The extractor *)

(** The extractor, by what the completion service and the decoder do. *)
Lemma extract_run (text : string) (w : World) :
  text_to_ticket.extract_incident_info text w
  = (match chat w "gpt-4o-mini" (extraction_messages text) with
     | Ret (Some content) =>
         match json_loads w (strip content) with
         | Ret v => Ret v
         | Raise e =>
             if issubclass (exn_cls e) JSONDecodeError
             then Ret (VDict (invalid_json_record (strip content)))
             else Raise e
         end
     | Ret None => Raise (Exn AttributeError "'NoneType' object has no attribute 'strip'")
     | Raise e => Raise e
     end,
     log (Completion "gpt-4o-mini" (extraction_messages text)) w).
Proof.
  unfold text_to_ticket.extract_incident_info, extraction_messages, invalid_json_record.
  unfold mbind at 1, M_bind at 1, chat_completions_create.
  destruct (chat w _ _) as [[content|]|e]; [|reflexivity..].
  unfold mbind, M_bind, lift, content_strip, try_except, loads. cbn [json_loads log].
  destruct (json_loads w (strip content)) as [v|e]; [reflexivity|].
  cbn [dispatch]. destruct (issubclass (exn_cls e) JSONDecodeError); reflexivity.
Qed.

(** X1.  When the completion call returns, the extractor has made that one
    call, to [gpt-4o-mini] with the system prompt and the user message, and
    nothing else.  On a content that is text it returns the decoded value
    when the decoder returns one, returns the record
    [{error: "Invalid JSON returned", raw}] with the stripped content as
    [raw] when the decoder raises [JSONDecodeError], and raises what the
    decoder raises when that is any other exception.  On a content that is
    [None] it raises [AttributeError]. *)
Theorem extract_decodes_or_reports (text : string) (w : World) (content : option string) :
  chat w "gpt-4o-mini" (extraction_messages text) = Ret content ->
  match content with
  | Some s =>
      (forall v, json_loads w (strip s) = Ret v ->
         text_to_ticket.extract_incident_info text w
         = (Ret v, log (Completion "gpt-4o-mini" (extraction_messages text)) w)) /\
      (forall e, json_loads w (strip s) = Raise e ->
         issubclass (exn_cls e) JSONDecodeError = true ->
         text_to_ticket.extract_incident_info text w
         = (Ret (VDict (invalid_json_record (strip s))),
            log (Completion "gpt-4o-mini" (extraction_messages text)) w)) /\
      (forall e, json_loads w (strip s) = Raise e ->
         issubclass (exn_cls e) JSONDecodeError = false ->
         text_to_ticket.extract_incident_info text w
         = (Raise e, log (Completion "gpt-4o-mini" (extraction_messages text)) w))
  | None =>
      text_to_ticket.extract_incident_info text w
      = (Raise (Exn AttributeError "'NoneType' object has no attribute 'strip'"),
         log (Completion "gpt-4o-mini" (extraction_messages text)) w)
  end.
Proof.
  intros Hchat. rewrite extract_run, Hchat.
  destruct content as [s|]; [|reflexivity].
  split; [|split].
  - intros v ->. reflexivity.
  - intros e -> ->. reflexivity.
  - intros e -> ->. reflexivity.
Qed.

(** X1 on an answer in prose. *)
Lemma extract_decodes_or_reports_witness :
  text_to_ticket.extract_incident_info sample_text refusal_world
  = (Ret (VDict (invalid_json_record "Sorry, I cannot help with that.")),
     log (Completion "gpt-4o-mini" (extraction_messages sample_text)) refusal_world).
Proof.
  destruct (extract_decodes_or_reports sample_text refusal_world
              (Some "Sorry, I cannot help with that.") eq_refl) as (_ & Hreport & _).
  rewrite (Hreport (Exn JSONDecodeError "Expecting value: line 1 column 1 (char 0)")
             eq_refl eq_refl).
  reflexivity.
Defined.

(** An answer that is an integer of 5000 digits: the [ValueError] of the
    decoder leaves the extractor, and the pipeline. *)
Example extract_raises_on_long_number :
  fst (text_to_ticket.extract_incident_info sample_text long_number_world)
  = Raise digit_limit_error /\
  fst (text_to_ticket.text_to_incident_ticket sample_text long_number_world)
  = Raise digit_limit_error.
Proof. split; vm_compute; reflexivity. Qed.

(** An answer without content. *)
Example extract_raises_without_content :
  fst (text_to_ticket.extract_incident_info sample_text no_content_world)
  = Raise (Exn AttributeError "'NoneType' object has no attribute 'strip'").
Proof. reflexivity. Qed.

(** X2.  An exception of the completion call is not caught: the extractor
    raises it, and so does the pipeline, whatever its class (the call stands
    before the [try]).  The call is logged; nothing else happened. *)
Theorem completion_failure_propagates (text : string) (w : World) (e : exn) :
  chat w "gpt-4o-mini" (extraction_messages text) = Raise e ->
  text_to_ticket.extract_incident_info text w
  = (Raise e, log (Completion "gpt-4o-mini" (extraction_messages text)) w) /\
  text_to_ticket.text_to_incident_ticket text w
  = (Raise e, log (Completion "gpt-4o-mini" (extraction_messages text)) w).
Proof.
  intros Hchat.
  assert (text_to_ticket.extract_incident_info text w
          = (Raise e, log (Completion "gpt-4o-mini" (extraction_messages text)) w)) as Hrun
    by (rewrite extract_run, Hchat; reflexivity).
  split; [exact Hrun|].
  unfold text_to_ticket.text_to_incident_ticket.
  apply run_bind_raise, Hrun.
Qed.

(** X2 on a service that is down. *)
Lemma completion_failure_propagates_witness :
  text_to_ticket.text_to_incident_ticket sample_text outage_world
  = (Raise (Exn OpenAIError "Connection error."),
     log (Completion "gpt-4o-mini" (extraction_messages sample_text)) outage_world).
Proof.
  apply (completion_failure_propagates sample_text outage_world
           (Exn OpenAIError "Connection error.") eq_refl).
Defined.

(** ** The pipeline *)

(** What runs after the extraction. *)
Lemma ticket_after_extraction (text : string) (w : World) (v : value) (w1 : World) :
  text_to_ticket.extract_incident_info text w = (Ret v, w1) ->
  text_to_ticket.text_to_incident_ticket text w
  = match py_in "error" v with
    | Raise e => (Raise e, w1)
    | Ret true => (Ret v, w1)
    | Ret false =>
        match v with
        | VDict d =>
            match py_float (py_or (dict_get d "estimatedDamage") (VFloat float_zero)) with
            | Ret damage =>
                text_to_ticket.create_incident_payload
                  (py_or (dict_get d "policyId") (VStr "UNKNOWN"))
                  (py_or (dict_get d "customerName") (VStr "UNKNOWN"))
                  (py_or (dict_get d "incidentType") (VStr "unspecified"))
                  (py_or (dict_get d "description") (VStr ""))
                  (py_or (dict_get d "location") (VStr "unspecified"))
                  (VFloat damage)
                  (dict_get d "incidentDate") w1
            | Raise e => (Raise e, w1)
            end
        | _ => (Raise (Exn AttributeError "object has no attribute 'get'"), w1)
        end
    end.
Proof.
  intros Hextract. unfold text_to_ticket.text_to_incident_ticket.
  erewrite run_bind by exact Hextract.
  unfold mbind at 1, M_bind at 1, lift at 1.
  destruct (py_in "error" v) as [[|]|e]; try reflexivity.
  destruct v; try reflexivity.
  unfold py_get, lift, mbind, M_bind, mret, M_ret.
  destruct (py_float _) as [damage|e]; [|reflexivity].
  unfold text_to_ticket.create_incident_payload, mbind, M_bind, mret, M_ret.
  destruct (dict_get d "incidentDate"); reflexivity.
Qed.

(** X3.  When the extractor returns JSON that is not an object, the
    pipeline builds no record.  An array or a string is returned as it is
    when it contains ["error"] (as an element, as a substring) and makes the
    pipeline raise [AttributeError] otherwise; [null], a boolean or a number
    makes it raise [TypeError]. *)
Theorem ticket_from_non_object (text : string) (w : World) (v : value) (w1 : World) :
  text_to_ticket.extract_incident_info text w = (Ret v, w1) ->
  (forall l, v = VList l ->
     text_to_ticket.text_to_incident_ticket text w
     = (if existsb (is_str "error") l then Ret v
        else Raise (Exn AttributeError "object has no attribute 'get'"), w1)) /\
  (forall s, v = VStr s ->
     text_to_ticket.text_to_incident_ticket text w
     = (if str_contains "error" s then Ret v
        else Raise (Exn AttributeError "object has no attribute 'get'"), w1)) /\
  (v = VNone \/ (exists b, v = VBool b) \/ (exists z, v = VInt z) \/ (exists f, v = VFloat f) ->
   text_to_ticket.text_to_incident_ticket text w
   = (Raise (Exn TypeError "argument is not iterable"), w1)).
Proof.
  intros Hextract. rewrite (ticket_after_extraction text w v w1 Hextract).
  split; [|split].
  - intros l ->. simpl. destruct (existsb (is_str "error") l); reflexivity.
  - intros s ->. simpl. destruct (str_contains "error" s); reflexivity.
  - intros [-> | [[b ->] | [[z ->] | [f ->]]]]; reflexivity.
Qed.

(** X3 on the array [[1, 2]]. *)
Lemma ticket_from_non_object_witness :
  text_to_ticket.text_to_incident_ticket sample_text array_world
  = (Raise (Exn AttributeError "object has no attribute 'get'"),
     snd (text_to_ticket.extract_incident_info sample_text array_world)).
Proof.
  destruct (ticket_from_non_object sample_text array_world (VList [VInt 1; VInt 2])
              (snd (text_to_ticket.extract_incident_info sample_text array_world))
              eq_refl) as (Hlist & _).
  rewrite (Hlist [VInt 1; VInt 2] eq_refl). reflexivity.
Defined.

(** X4.  On an object without the key [error] whose [estimatedDamage] is
    true and not something [float()] accepts, the pipeline raises what
    [float()] raises, a [ValueError], a [TypeError] or an [OverflowError], and
    leaves the world as the extractor left it: the clock is not read and no
    record is built. *)
Theorem ticket_raises_when_float_rejects (text : string) (w : World)
    (d : gmap string value) (w1 : World) :
  text_to_ticket.extract_incident_info text w = (Ret (VDict d), w1) ->
  d !! "error" = None ->
  truthy (dict_get d "estimatedDamage") = true ->
  float_accepts (dict_get d "estimatedDamage") = false ->
  exists e,
    py_float (dict_get d "estimatedDamage") = Raise e /\
    text_to_ticket.text_to_incident_ticket text w = (Raise e, w1) /\
    (exn_cls e = ValueError \/ exn_cls e = TypeError \/ exn_cls e = OverflowError).
Proof.
  intros Hextract Herror Htruthy Hrejects.
  rewrite (ticket_of_record text w d w1 Hextract Herror).
  rewrite py_or_truthy by exact Htruthy.
  unfold float_accepts in Hrejects.
  destruct (py_float (dict_get d "estimatedDamage")) as [f|e] eqn:Hfloat;
    [discriminate Hrejects|].
  exists e. split; [reflexivity|]. split; [reflexivity|].
  destruct (dict_get d "estimatedDamage") as [|b|z|f|s|l|m]; simpl in Hfloat.
  - injection Hfloat as <-. auto.
  - discriminate Hfloat.
  - unfold float_of_int in Hfloat.
    destruct (binary_normalize 53 1024 z 0 false); try discriminate Hfloat.
    injection Hfloat as <-. auto.
  - discriminate Hfloat.
  - destruct (float_of_str s); [discriminate Hfloat|]. injection Hfloat as <-. auto.
  - injection Hfloat as <-. auto.
  - injection Hfloat as <-. auto.
Qed.

(** X4 on the damage [$1,500]. *)
Lemma ticket_raises_when_float_rejects_witness :
  exists e,
    py_float (dict_get damage_text_extract "estimatedDamage") = Raise e /\
    text_to_ticket.text_to_incident_ticket sample_text damage_text_world
    = (Raise e, snd (text_to_ticket.extract_incident_info sample_text damage_text_world)) /\
    (exn_cls e = ValueError \/ exn_cls e = TypeError \/ exn_cls e = OverflowError).
Proof.
  apply (ticket_raises_when_float_rejects sample_text damage_text_world
           damage_text_extract
           (snd (text_to_ticket.extract_incident_info sample_text damage_text_world)));
    reflexivity.
Defined.

Lemma posted_app (t1 t2 : list event) :
  posted (t1 ++ t2)%list = (posted t1 ++ posted t2)%list.
Proof. apply omap_app. Qed.

Lemma posted_log (e : event) (w : World) :
  posted (trace (log e w))
  = (posted (trace w) ++ match e with Posted r => [r] | _ => [] end)%list.
Proof. cbn [trace log]. rewrite posted_app. destruct e; reflexivity. Qed.

(** X5.  Whatever happens, the pipeline makes one completion call and then
    reads the clock at most once; it posts nothing to the webhook, prints
    nothing, and changes no dict. *)
Theorem ticket_effects (text : string) (w : World) :
  exists reads,
    trace (snd (text_to_ticket.text_to_incident_ticket text w))
    = (trace w ++ Completion "gpt-4o-mini" (extraction_messages text) :: reads)%list /\
    (reads = [] \/ reads = [ClockRead]) /\
    posted (trace (snd (text_to_ticket.text_to_incident_ticket text w))) = posted (trace w) /\
    heap (snd (text_to_ticket.text_to_incident_ticket text w)) = heap w.
Proof.
  assert (exists reads,
            trace (snd (text_to_ticket.text_to_incident_ticket text w))
            = (trace w ++ Completion "gpt-4o-mini" (extraction_messages text) :: reads)%list /\
            (reads = [] \/ reads = [ClockRead]) /\
            heap (snd (text_to_ticket.text_to_incident_ticket text w)) = heap w)
    as (reads & Htrace & Hreads & Hheap).
  { pose proof (extract_run text w) as Hrun.
    destruct (match chat w "gpt-4o-mini" (extraction_messages text) with
              | Ret (Some content) =>
                  match json_loads w (strip content) with
                  | Ret v => Ret v
                  | Raise e =>
                      if issubclass (exn_cls e) JSONDecodeError
                      then Ret (VDict (invalid_json_record (strip content)))
                      else Raise e
                  end
              | Ret None =>
                  Raise (Exn AttributeError "'NoneType' object has no attribute 'strip'")
              | Raise e => Raise e
              end) as [v|e].
    - rewrite (ticket_after_extraction text w v _ Hrun).
      destruct (py_in "error" v) as [[|]|e];
        try (exists []; split; [reflexivity|split; [by left|reflexivity]]).
      destruct v as [| | | | | |d];
        try (exists []; split; [reflexivity|split; [by left|reflexivity]]).
      destruct (py_float _) as [damage|e];
        [|exists []; split; [reflexivity|split; [by left|reflexivity]]].
      rewrite create_incident_payload_run.
      destruct (dict_get d "incidentDate");
        try (exists []; split; [reflexivity|split; [by left|reflexivity]]).
      exists [ClockRead]. split; [|split; [by right|reflexivity]].
      cbn [snd trace log]. rewrite <- app_assoc. reflexivity.
    - exists []. unfold text_to_ticket.text_to_incident_ticket.
      erewrite run_bind_raise by exact Hrun.
      split; [reflexivity|split; [by left|reflexivity]]. }
  exists reads. repeat (split; [assumption|]). split; [|exact Hheap].
  rewrite Htrace, posted_app.
  destruct Hreads as [-> | ->]; cbn; apply app_nil_r.
Qed.

(** ** Dates *)

Lemma years_print_back : forallb year_prints_back (seqZ 1 9999) = true.
Proof. vm_compute. reflexivity. Qed.

(** A year from 1 to 9999 is printed as four digits that read back. *)
Lemma year_digits (y : Z) :
  1 <= y <= 9999 ->
  exists a b c d,
    zfill 4 (str_of_int y) = String a (String b (String c (String d EmptyString))) /\
    is_digit a = true /\ is_digit b = true /\ is_digit c = true /\ is_digit d = true /\
    int_of_group (String a (String b (String c (String d EmptyString)))) = y.
Proof.
  intros Hy. pose proof years_print_back as Hall.
  rewrite forallb_forall in Hall.
  assert (year_prints_back y = true) as Hok.
  { apply Hall. apply list_elem_of_In, elem_of_seqZ. lia. }
  unfold year_prints_back in Hok.
  destruct (zfill 4 (str_of_int y)) as [|a [|b [|c [|d [|? ?]]]]]; try discriminate Hok.
  exists a, b, c, d.
  apply andb_true_iff in Hok as [Hok Hv]. apply andb_true_iff in Hok as [Hok Hd].
  apply andb_true_iff in Hok as [Hok Hc]. apply andb_true_iff in Hok as [Ha Hb].
  apply Z.eqb_eq in Hv. auto 10.
Qed.

(** The match of [%Y] on four digits followed by anything. *)
Lemma re_match_year {X : Type} (a b c d : ascii) (rest : string)
    (k : string -> captures -> option X) :
  is_digit a = true -> is_digit b = true -> is_digit c = true -> is_digit d = true ->
  re_match re_Y (String a (String b (String c (String d rest)))) [] k
  = k rest [("Y", String a (String b (String c (String d EmptyString))))].
Proof.
  intros Ha Hb Hc Hd. unfold re_Y, re_digit. cbn [re_match].
  change (in_range (code "0") (code "9")) with is_digit.
  rewrite Ha, Hb, Hc, Hd.
  replace (String.length (String a (String b (String c (String d rest))))
           - String.length rest)%nat with 4%nat by (simpl; lia).
  destruct rest; reflexivity.
Qed.

(** After the year: the month and the day as [strftime_ymd] prints them,
    one case for each of the 12 months and 31 days. *)
Lemma re_match_month_day (Y : string) (m d : Z) :
  1 <= m <= 12 -> 1 <= d <= 31 ->
  re_match (Cat (Lit "-") (Cat re_m (Cat (Lit "-") re_d)))
    ("-" ++ zfill 2 (str_of_int m) ++ "-" ++ zfill 2 (str_of_int d)) [("Y", Y)]
    (fun rest g => Some (rest, g))
  = Some (EmptyString,
          [("d", zfill 2 (str_of_int d)); ("m", zfill 2 (str_of_int m)); ("Y", Y)]) /\
  int_of_group (zfill 2 (str_of_int m)) = m /\
  int_of_group (zfill 2 (str_of_int d)) = d.
Proof.
  intros Hm Hd.
  assert (m ∈ seqZ 1 12) as Hmin by (apply elem_of_seqZ; lia).
  assert (d ∈ seqZ 1 31) as Hdin by (apply elem_of_seqZ; lia).
  apply list_elem_of_In in Hmin, Hdin. vm_compute in Hmin, Hdin.
  repeat (destruct Hmin as [<-|Hmin]); try contradiction;
    repeat (destruct Hdin as [<-|Hdin]); try contradiction; vm_compute; auto.
Qed.

Lemma append_four (a b c d : ascii) (t : string) :
  String a (String b (String c (String d EmptyString))) ++ t
  = String a (String b (String c (String d t))).
Proof. reflexivity. Qed.

Lemma re_match_cat {X : Type} (r1 r2 : regex) (s : string) (g : captures)
    (k : string -> captures -> option X) :
  re_match (Cat r1 r2) s g k = re_match r1 s g (fun rest g1 => re_match r2 rest g1 k).
Proof. reflexivity. Qed.

Lemma groups_of_match (D Mo Y : string) :
  group [("d", D); ("m", Mo); ("Y", Y)] "Y" = Y /\
  group [("d", D); ("m", Mo); ("Y", Y)] "m" = Mo /\
  group [("d", D); ("m", Mo); ("Y", Y)] "d" = D.
Proof. repeat split. Qed.

Lemma valid_date_bounds (d : date) :
  valid_date d = true -> 1 <= year d <= 9999 /\ 1 <= month d <= 12 /\ 1 <= day d <= 31.
Proof.
  unfold valid_date. intros Hvalid.
  repeat (apply andb_true_iff in Hvalid as [Hvalid ?]).
  repeat match goal with H : Z.leb _ _ = true |- _ => apply Z.leb_le in H end.
  assert (days_in_month (year d) (month d) <= 31).
  { unfold days_in_month.
    repeat match goal with |- context [if ?c then _ else _] => destruct c end; lia. }
  lia.
Qed.

(** In the model, where [strftime_ymd] pads the year to four digits,
    [strptime_ymd] reads back every valid date. *)
Lemma strptime_strftime (d : date) :
  valid_date d = true -> strptime_ymd (strftime_ymd d) = Some d.
Proof.
  intros Hvalid. destruct (valid_date_bounds d Hvalid) as (Hy & Hm & Hd).
  destruct d as [y m dd]. cbn [year month day] in Hy, Hm, Hd.
  destruct (year_digits y Hy) as (a & b & c & e & HY & Ha & Hb & Hc & He & Hval).
  destruct (re_match_month_day (String a (String b (String c (String e EmptyString))))
              m dd Hm Hd) as (Htail & Hmv & Hdv).
  unfold strptime_ymd, strftime_ymd. cbn [year month day].
  rewrite HY, append_four. unfold ymd_regex.
  rewrite re_match_cat, re_match_year by assumption.
  rewrite Htail. cbn [mbind option_bind].
  destruct (groups_of_match (zfill 2 (str_of_int dd)) (zfill 2 (str_of_int m))
              (String a (String b (String c (String e EmptyString))))) as (-> & -> & ->).
  rewrite Hval, Hmv, Hdv, Hvalid. reflexivity.
Qed.

(** X6.  Round trip of the date format: a valid date from the year 1000 on,
    printed with [%Y-%m-%d], is read back by [strptime] with the same format
    as the same date.  (Below the year 1000 the padding of [%Y] depends on
    the platform's C library.) *)
Theorem strptime_reads_strftime (d : date) :
  valid_date d = true -> 1000 <= year d ->
  strptime_ymd (strftime_ymd d) = Some d.
Proof. intros Hvalid _. apply strptime_strftime, Hvalid. Qed.

(** X6 on a leap day. *)
Lemma strptime_reads_strftime_witness :
  strftime_ymd (Date 2024 2 29) = "2024-02-29" /\
  strptime_ymd "2024-02-29" = Some (Date 2024 2 29).
Proof.
  split; [reflexivity|].
  apply (strptime_reads_strftime (Date 2024 2 29)); [reflexivity|]. simpl. lia.
Defined.

(** ** The builder and the validator together *)

Lemma seven_keys_present (p c dt t ds l e : value) :
  Forall (fun k => is_Some
    (({[ "policyId" := p; "customerName" := c; "incidentDate" := dt;
         "incidentType" := t; "description" := ds; "location" := l;
         "estimatedDamage" := e ]} : gmap string value) !! k))
    post_to_n8n.required_fields.
Proof.
  unfold post_to_n8n.required_fields.
  repeat (apply Forall_cons; split; [eexists; by simplify_map_eq|]).
  apply Forall_nil_2.
Qed.

(** The verdict on a record of the builder's shape. *)
Lemma validate_built (self : post_to_n8n.N8NWebhookClient) (r : ref) (w : World)
    (p c dt t ds l e : value) :
  heap w r = {[ "policyId" := p; "customerName" := c; "incidentDate" := dt;
                "incidentType" := t; "description" := ds; "location" := l;
                "estimatedDamage" := e ]} ->
  post_to_n8n.validate_incident_data self r w
  = (match strptime dt with
     | Ret _ =>
         Ret (if isinstance_int_float e then (true, None)
              else (false, Some "estimatedDamage must be a number"))
     | Raise x =>
         if issubclass (exn_cls x) ValueError
         then Ret (false, Some "incidentDate must be in YYYY-MM-DD format")
         else Raise x
     end, w).
Proof.
  intros Hheap. rewrite validate_all_present.
  - rewrite Hheap. unfold dict_get.
    replace (_ !! "incidentDate") with (Some dt) by (by simplify_map_eq).
    replace (_ !! "estimatedDamage") with (Some e) by (by simplify_map_eq).
    reflexivity.
  - rewrite Hheap. apply seven_keys_present.
Qed.

(** X7.  A record from [create_incident_payload] passes the validator when
    the damage is an [int] or a [float] and the date was left out (on a
    clock that shows a valid date from the year 1000 on) or is a string in
    the year-month-day format. *)
Theorem built_record_validates (self : post_to_n8n.N8NWebhookClient)
    (policy_id customer_name incident_type description location estimated_damage
     incident_date : value) (w : World) :
  isinstance_int_float estimated_damage = true ->
  (incident_date = VNone /\ valid_date (clock w) = true /\ 1000 <= year (clock w)) \/
    (exists s parsed, incident_date = VStr s /\ strptime_ymd s = Some parsed) ->
  exists payload w',
    post_to_n8n.create_incident_payload policy_id customer_name incident_type
      description location estimated_damage incident_date w = (Ret (VDict payload), w') /\
    forall r w2, heap w2 r = payload ->
      post_to_n8n.validate_incident_data self r w2 = (Ret (true, None), w2).
Proof.
  intros Hdamage Hdate. eexists _, _.
  split; [rewrite create_incident_payload_copies; apply create_incident_payload_run|].
  intros r w2 Hheap. rewrite (validate_built self r w2 _ _ _ _ _ _ _ Hheap).
  destruct Hdate as [(-> & Hvalid & _) | (s & parsed & -> & Hparsed)].
  - cbn [strptime]. rewrite strptime_strftime by exact Hvalid. rewrite Hdamage. reflexivity.
  - cbn [strptime]. rewrite Hparsed, Hdamage. reflexivity.
Qed.

(** X7 on a record built without a date. *)
Lemma built_record_validates_witness :
  exists payload w',
    post_to_n8n.create_incident_payload (VStr "PL-4829") (VStr "Sarah Thompson")
      (VStr "Auto Accident") (VStr "Rear-ended on Main Street") (VStr "Denver")
      (VInt 1500) VNone (record_world ∅) = (Ret (VDict payload), w') /\
    forall r w2, heap w2 r = payload ->
      post_to_n8n.validate_incident_data sample_client r w2 = (Ret (true, None), w2).
Proof.
  apply built_record_validates; [reflexivity|].
  left. split; [reflexivity|]. split; [reflexivity|]. simpl. lia.
Defined.

(** X8.  The validator on a ticket of the pipeline (an object without the
    key [error], a damage that is false or that [float()] accepts): it never
    reports a missing field or a damage that is not a number, and its answer
    is decided by the extracted date.
    - Missing or [null], on a clock that shows a valid date from the year
      1000 on: the ticket is accepted.
    - A string: accepted if it parses, the format error if not; so an empty
      string, which is not replaced by the clock's date, is rejected.
    - Anything else that is not [null]: the validator raises [TypeError]. *)
Theorem ticket_validation_by_date (text : string) (w : World)
    (d : gmap string value) (w1 : World) :
  text_to_ticket.extract_incident_info text w = (Ret (VDict d), w1) ->
  d !! "error" = None ->
  truthy (dict_get d "estimatedDamage") = false \/
    float_accepts (dict_get d "estimatedDamage") = true ->
  exists payload w2,
    text_to_ticket.text_to_incident_ticket text w = (Ret (VDict payload), w2) /\
    forall self r w3, heap w3 r = payload ->
      (dict_get d "incidentDate" = VNone ->
       valid_date (clock w1) = true -> 1000 <= year (clock w1) ->
       post_to_n8n.validate_incident_data self r w3 = (Ret (true, None), w3)) /\
      (forall s, dict_get d "incidentDate" = VStr s ->
       post_to_n8n.validate_incident_data self r w3
       = (Ret match strptime_ymd s with
              | Some _ => (true, None)
              | None => (false, Some "incidentDate must be in YYYY-MM-DD format")
              end, w3)) /\
      (dict_get d "incidentDate" <> VNone ->
       (forall s, dict_get d "incidentDate" <> VStr s) ->
       post_to_n8n.validate_incident_data self r w3
       = (Raise (Exn TypeError "strptime() argument 1 must be str"), w3)).
Proof.
  intros Hextract Herror Hdamage.
  rewrite (ticket_of_record text w d w1 Hextract Herror).
  assert (exists damage,
            py_float (py_or (dict_get d "estimatedDamage") (VFloat float_zero)) = Ret damage)
    as (damage & Hfloat).
  { destruct (truthy (dict_get d "estimatedDamage")) eqn:Htruthy.
    - destruct Hdamage as [Hfalse|Haccepts]; [discriminate Hfalse|].
      rewrite py_or_truthy by exact Htruthy. unfold float_accepts in Haccepts.
      destruct (py_float (dict_get d "estimatedDamage")) as [damage|e];
        [eauto|discriminate Haccepts].
    - rewrite py_or_falsy by exact Htruthy. exists float_zero. reflexivity. }
  rewrite Hfloat, create_incident_payload_run.
  eexists _, _. split; [reflexivity|].
  intros self r w3 Hheap. rewrite (validate_built self r w3 _ _ _ _ _ _ _ Hheap).
  split; [|split].
  - intros -> Hvalid _. cbn [strptime]. rewrite strptime_strftime by exact Hvalid.
    reflexivity.
  - intros s ->. cbn [strptime]. destruct (strptime_ymd s); reflexivity.
  - intros Hnone Hstr. destruct (dict_get d "incidentDate") as [| | | |s| |];
      try reflexivity; [contradiction|exfalso; eapply Hstr; reflexivity].
Qed.

(** X8 on the name-only extraction: the ticket is accepted. *)
Lemma ticket_validation_by_date_witness :
  exists payload w2,
    text_to_ticket.text_to_incident_ticket sample_text name_only_world
    = (Ret (VDict payload), w2) /\
    forall r w3, heap w3 r = payload ->
      post_to_n8n.validate_incident_data sample_client r w3 = (Ret (true, None), w3).
Proof.
  destruct (ticket_validation_by_date sample_text name_only_world name_only_extract
              (snd (text_to_ticket.extract_incident_info sample_text name_only_world)))
    as (payload & w2 & Hrun & Hverdict).
  - reflexivity.
  - reflexivity.
  - left. reflexivity.
  - exists payload, w2. split; [exact Hrun|].
    intros r w3 Hheap. destruct (Hverdict sample_client r w3 Hheap) as (Hnull & _).
    apply Hnull; [reflexivity|reflexivity|]. simpl. lia.
Defined.

(** ** The validator *)

(** The verdict with all seven keys present, by the kind of the date. *)
Lemma validate_by_date (self : post_to_n8n.N8NWebhookClient) (incident_data : ref)
    (w : World) :
  Forall (fun k => is_Some (heap w incident_data !! k)) post_to_n8n.required_fields ->
  post_to_n8n.validate_incident_data self incident_data w
  = (match dict_get (heap w incident_data) "incidentDate" with
     | VStr s =>
         Ret match strptime_ymd s with
             | Some _ =>
                 if isinstance_int_float (dict_get (heap w incident_data) "estimatedDamage")
                 then (true, None)
                 else (false, Some "estimatedDamage must be a number")
             | None => (false, Some "incidentDate must be in YYYY-MM-DD format")
             end
     | _ => Raise (Exn TypeError "strptime() argument 1 must be str")
     end, w).
Proof.
  intros Hall. rewrite validate_all_present by exact Hall.
  destruct (dict_get (heap w incident_data) "incidentDate") as [| | | |s| |];
    try reflexivity.
  cbn [strptime]. destruct (strptime_ymd s); reflexivity.
Qed.

(** X9.  The validator accepts exactly the records that have all seven
    keys, a date that is a string in the year-month-day format, and a damage
    that is an [int] or a [float]. *)
Theorem validate_accepts_iff (self : post_to_n8n.N8NWebhookClient)
    (incident_data : ref) (w : World) :
  fst (post_to_n8n.validate_incident_data self incident_data w) = Ret (true, None) <->
  Forall (fun k => is_Some (heap w incident_data !! k)) post_to_n8n.required_fields /\
  (exists s parsed,
     heap w incident_data !! "incidentDate" = Some (VStr s) /\
     strptime_ymd s = Some parsed) /\
  isinstance_int_float (dict_get (heap w incident_data) "estimatedDamage") = true.
Proof.
  split.
  - intros Haccept.
    destruct (decide (Forall (fun k => is_Some (heap w incident_data !! k))
                        post_to_n8n.required_fields)) as [Hall|Hsome].
    + split; [exact Hall|].
      rewrite validate_by_date in Haccept by exact Hall. cbn [fst] in Haccept.
      assert (is_Some (heap w incident_data !! "incidentDate")) as [vdate Hdate].
      { rewrite Forall_forall in Hall. apply Hall.
        unfold post_to_n8n.required_fields. set_solver. }
      unfold dict_get at 1 in Haccept. rewrite Hdate in Haccept.
      cbn [default from_option id] in Haccept.
      destruct vdate as [| | | |s| |]; try discriminate Haccept.
      destruct (strptime_ymd s) as [parsed|] eqn:Hparsed; [|discriminate Haccept].
      split; [eauto|].
      revert Haccept. destruct (isinstance_int_float _); [reflexivity|discriminate].
    + apply not_Forall_Exists in Hsome; [|intros k; apply _].
      apply Exists_exists in Hsome as (k & Hin & Hk).
      destruct (split_at_first (fun k => is_Some (heap w incident_data !! k)) _
                  post_to_n8n.required_fields)
        as (before & field & after & Hsplit & Hbefore & Hfield).
      { exists k. split; assumption. }
      apply eq_None_not_Some in Hfield.
      erewrite validate_missing in Haccept by eassumption. discriminate Haccept.
  - intros (Hall & (s & parsed & Hdate & Hparsed) & Hdamage).
    rewrite (validate_str_date self incident_data w s Hall Hdate), Hparsed, Hdamage.
    reflexivity.
Qed.

(** X10.  With all seven keys and a date that is a string, the validator
    returns and does not raise, and the date is judged before the damage:
    the answer is the format error exactly when the string does not parse,
    whatever the damage is. *)
Theorem validate_str_date_returns (self : post_to_n8n.N8NWebhookClient)
    (incident_data : ref) (w : World) (s : string) :
  Forall (fun k => is_Some (heap w incident_data !! k)) post_to_n8n.required_fields ->
  heap w incident_data !! "incidentDate" = Some (VStr s) ->
  exists verdict,
    post_to_n8n.validate_incident_data self incident_data w = (Ret verdict, w) /\
    (verdict = (false, Some "incidentDate must be in YYYY-MM-DD format")
     <-> strptime_ymd s = None).
Proof.
  intros Hall Hdate. rewrite (validate_str_date self incident_data w s Hall Hdate).
  eexists. split; [reflexivity|].
  destruct (strptime_ymd s); [|tauto].
  destruct (isinstance_int_float _); split; intros H; discriminate H.
Qed.

(** X10 on a record whose date and damage are both wrong: the date is
    reported. *)
Lemma validate_str_date_returns_witness :
  post_to_n8n.validate_incident_data sample_client 0%nat (record_world twice_wrong_record)
  = (Ret (false, Some "incidentDate must be in YYYY-MM-DD format"),
     record_world twice_wrong_record).
Proof.
  destruct (validate_str_date_returns sample_client 0%nat
              (record_world twice_wrong_record) "13-13-2024")
    as (verdict & Hrun & Hverdict).
  - all_fields_present.
  - reflexivity.
  - rewrite Hrun. f_equal. f_equal. apply Hverdict. reflexivity.
Defined.

(** X11.  With all seven keys and a date that is not a string (a number,
    [None], a list), the validator raises [TypeError] instead of returning a
    verdict, whatever the damage is. *)
Theorem validate_non_str_date_raises (self : post_to_n8n.N8NWebhookClient)
    (incident_data : ref) (w : World) (v : value) :
  Forall (fun k => is_Some (heap w incident_data !! k)) post_to_n8n.required_fields ->
  heap w incident_data !! "incidentDate" = Some v ->
  (forall s, v <> VStr s) ->
  post_to_n8n.validate_incident_data self incident_data w
  = (Raise (Exn TypeError "strptime() argument 1 must be str"), w).
Proof. apply validate_date_not_str. Qed.

(** X11 on the date [20240315], a number. *)
Lemma validate_non_str_date_raises_witness :
  post_to_n8n.validate_incident_data sample_client 0%nat (record_world int_date_record)
  = (Raise (Exn TypeError "strptime() argument 1 must be str"),
     record_world int_date_record).
Proof.
  apply (validate_non_str_date_raises sample_client 0%nat (record_world int_date_record)
           (VInt 20240315)).
  - all_fields_present.
  - reflexivity.
  - discriminate.
Defined.

(** X12.  All the validator can do: accept with no message, reject with one
    of three messages (a missing field that is one of the seven, the date
    format, the damage type), or raise [TypeError].  It never accepts with a
    message and never rejects without one. *)
Theorem validate_outcomes (self : post_to_n8n.N8NWebhookClient)
    (incident_data : ref) (w : World) :
  let outcome := fst (post_to_n8n.validate_incident_data self incident_data w) in
  outcome = Ret (true, None) \/
  (exists field, field ∈ post_to_n8n.required_fields /\
     outcome = Ret (false, Some ("Missing required field: " ++ field))) \/
  outcome = Ret (false, Some "incidentDate must be in YYYY-MM-DD format") \/
  outcome = Ret (false, Some "estimatedDamage must be a number") \/
  outcome = Raise (Exn TypeError "strptime() argument 1 must be str").
Proof.
  cbv zeta.
  destruct (decide (Forall (fun k => is_Some (heap w incident_data !! k))
                      post_to_n8n.required_fields)) as [Hall|Hsome].
  - rewrite validate_by_date by exact Hall. cbn [fst].
    destruct (dict_get (heap w incident_data) "incidentDate") as [| | | |s| |];
      try (right; right; right; right; reflexivity).
    destruct (strptime_ymd s); [|right; right; left; reflexivity].
    destruct (isinstance_int_float _);
      [left; reflexivity|right; right; right; left; reflexivity].
  - apply not_Forall_Exists in Hsome; [|intros k; apply _].
    apply Exists_exists in Hsome as (k & Hin & Hk).
    destruct (split_at_first (fun k => is_Some (heap w incident_data !! k)) _
                post_to_n8n.required_fields)
      as (before & field & after & Hsplit & Hbefore & Hfield).
    { exists k. split; assumption. }
    apply eq_None_not_Some in Hfield.
    erewrite validate_missing by eassumption.
    right. left. exists field. split; [|reflexivity].
    rewrite Hsplit. apply elem_of_app. right. constructor.
Qed.

(** ** The delivery client *)

Lemma json_loads_log (e : event) (w : World) : json_loads (log e w) = json_loads w.
Proof. reflexivity. Qed.

(** The inner [try] of [post_incident]: the decoded body, or the text of
    the body when the decoder raises [JSONDecodeError]; another exception
    of the decoder goes on. *)
Lemma body_or_text (response : Response) (w : World) :
  try_except
    (body ← response_json response;
     mret (VDict {[
       "success" := VBool true;
       "status_code" := VInt (status_code response);
       "response" := body ]}))
    [(JSONDecodeError, fun _ =>
        mret (VDict {[
          "success" := VBool true;
          "status_code" := VInt (status_code response);
          "response" := VStr (text response) ]}))] w
  = (match json_loads w (text response) with
     | Ret body => Ret (VDict (result_success (status_code response) body))
     | Raise e =>
         if issubclass (exn_cls e) JSONDecodeError
         then Ret (VDict (result_success (status_code response) (VStr (text response))))
         else Raise e
     end, w).
Proof.
  unfold try_except at 1. unfold mbind, M_bind. rewrite response_json_run.
  destruct (json_loads w (text response)) as [body|e]; [reflexivity|].
  destruct (issubclass (exn_cls e) JSONDecodeError) eqn:Hjson.
  - reflexivity.
  - cbn [dispatch]. rewrite Hjson. reflexivity.
Qed.

(** The two [except] clauses of [post_incident] send nothing. *)
Lemma dispatch_caught_posted (self : post_to_n8n.N8NWebhookClient) (e : exn) (w : World) :
  posted (trace (snd (dispatch
    [(Requests Timeout, fun _ =>
        let error_msg := "Request timed out after "
                         ++ str_of_int (post_to_n8n.timeout self) ++ " seconds" in
        print [VStr "[N8NWebhookClient] ❌ Error: "; VStr error_msg];;
        mret (VDict {[ "success" := VBool false; "error" := VStr error_msg ]}));
     (Requests RequestException, fun e =>
        let error_msg := "Request failed: " ++ exn_str e in
        print [VStr "[N8NWebhookClient] ❌ Error: "; VStr error_msg];;
        mret (VDict {[ "success" := VBool false; "error" := VStr error_msg ]}))] e w)))
  = posted (trace w).
Proof.
  cbn [dispatch].
  destruct (issubclass (exn_cls e) (Requests Timeout));
    [|destruct (issubclass (exn_cls e) (Requests RequestException))];
    unfold mbind, M_bind, mret, M_ret, print, raise; cbn [snd];
    rewrite ?posted_log; rewrite ?app_nil_r; reflexivity.
Qed.

(** The requests in the log after [post_incident]. *)
Lemma post_incident_posted (self : post_to_n8n.N8NWebhookClient)
    (policy_id customer_name incident_date incident_type description location
     estimated_damage : value) (w : World) :
  posted (trace (snd (post_to_n8n.post_incident self policy_id customer_name incident_date
                        incident_type description location estimated_damage w)))
  = (posted (trace w)
     ++ [incident_request self policy_id customer_name incident_date incident_type
           description location estimated_damage])%list.
Proof.
  unfold post_to_n8n.post_incident, incident_request.
  unfold mbind at 1 2, M_bind at 1 2, print at 1 2.
  unfold try_except at 1. unfold mbind at 1, M_bind at 1.
  rewrite requests_post_run, !post_result_log.
  match goal with
  | |- context [post_result w ?r] => destruct (post_result w r) as [response|e]
  end.
  - destruct (is_http_error (status_code response)) eqn:Herr.
    + unfold mbind at 1, M_bind at 1. rewrite raise_for_status_error by exact Herr.
      rewrite dispatch_caught_posted, !posted_log, !app_nil_r. reflexivity.
    + unfold mbind at 1, M_bind at 1. rewrite raise_for_status_ok by exact Herr.
      unfold mbind at 1, M_bind at 1, print at 1.
      rewrite body_or_text, !json_loads_log.
      destruct (json_loads w (text response)) as [body|e];
        [|destruct (issubclass (exn_cls e) JSONDecodeError)];
        rewrite ?dispatch_caught_posted; cbn [snd];
        rewrite !posted_log, !app_nil_r; reflexivity.
  - rewrite dispatch_caught_posted, !posted_log, !app_nil_r. reflexivity.
Qed.








(** X15.  When the request fails, a [Timeout], a [ConnectTimeout] (which is
    also a [ConnectionError]) or a [ReadTimeout] is reported as
    [Request timed out after <timeout> seconds], without the exception's own
    message; every other exception of requests is reported as
    [Request failed: ] followed by its message. *)
Theorem post_incident_failure_message (self : post_to_n8n.N8NWebhookClient)
    (policy_id customer_name incident_date incident_type description location
     estimated_damage : value) (w : World) (c : requests_exn) (msg : string) :
  post_result w (incident_request self policy_id customer_name incident_date
                   incident_type description location estimated_damage)
  = Raise (Exn (Requests c) msg) ->
  fst (post_to_n8n.post_incident self policy_id customer_name incident_date
         incident_type description location estimated_damage w)
  = Ret (VDict (result_failure
      (if bool_decide (c = Timeout \/ c = ConnectTimeout \/ c = ReadTimeout)
       then "Request timed out after " ++ str_of_int (post_to_n8n.timeout self) ++ " seconds"
       else "Request failed: " ++ msg))).
Proof.
  intros Hfailed. rewrite post_incident_value, Hfailed. unfold caught. cbn [exn_cls exn_str].
  destruct (issubclass (Requests c) (Requests Timeout)) eqn:Hsub.
  - rewrite bool_decide_eq_true_2 by (apply timeout_classes, Hsub). reflexivity.
  - rewrite requests_exn_caught.
    rewrite bool_decide_eq_false_2; [reflexivity|].
    intros H. apply timeout_classes in H. congruence.
Qed.

(** X15 on a connection that timed out. *)
Lemma post_incident_failure_message_witness :
  fst (post_to_n8n.post_incident sample_client (VStr "PL-4829") (VStr "Sarah Thompson")
         (VStr "2024-03-15") (VStr "Auto Accident") (VStr "Rear-ended on Main Street")
         (VStr "Denver") (VFloat float_1500)
         (webhook_world (Raise (Exn (Requests ConnectTimeout) "Connection to n8n.example timed out."))))
  = Ret (VDict (result_failure "Request timed out after 30 seconds")).
Proof.
  rewrite (post_incident_failure_message sample_client (VStr "PL-4829")
             (VStr "Sarah Thompson") (VStr "2024-03-15") (VStr "Auto Accident")
             (VStr "Rear-ended on Main Street") (VStr "Denver") (VFloat float_1500)
             (webhook_world (Raise (Exn (Requests ConnectTimeout) "Connection to n8n.example timed out.")))
             ConnectTimeout "Connection to n8n.example timed out." eq_refl).
  reflexivity.
Defined.



(** X17.  Both copies of [create_incident_payload] touch the world only to
    read the clock, and only when no date was passed: with a date the world
    is as before, without one the clock was read once. *)
Theorem builder_reads_clock_only_without_date
    (policy_id customer_name incident_type description location estimated_damage
     incident_date : value) (w : World) :
  snd (post_to_n8n.create_incident_payload policy_id customer_name incident_type
         description location estimated_damage incident_date w)
  = snd (text_to_ticket.create_incident_payload policy_id customer_name incident_type
           description location estimated_damage incident_date w) /\
  (incident_date <> VNone ->
   snd (text_to_ticket.create_incident_payload policy_id customer_name incident_type
          description location estimated_damage incident_date w) = w) /\
  (incident_date = VNone ->
   snd (text_to_ticket.create_incident_payload policy_id customer_name incident_type
          description location estimated_damage incident_date w) = log ClockRead w).
Proof.
  rewrite create_incident_payload_copies, create_incident_payload_run.
  split; [reflexivity|]. split.
  - intros Hdate. destruct incident_date; [contradiction|reflexivity..].
  - intros ->. reflexivity.
Qed.

(** ** The pipeline, the validator and the delivery client together *)


(** [post_incident_from_dict] stops at the first key that is missing. *)
Lemma post_incident_from_dict_missing (self : post_to_n8n.N8NWebhookClient)
    (incident_data : ref) (w : World) (before : list string) (field : string)
    (after : list string) :
  post_to_n8n.required_fields = (before ++ field :: after)%list ->
  Forall (fun k => is_Some (heap w incident_data !! k)) before ->
  heap w incident_data !! field = None ->
  post_to_n8n.post_incident_from_dict self incident_data w
  = (Raise (Exn KeyError ("'" ++ field ++ "'")), w).
Proof.
  intros Hsplit Hbefore Hfield.
  unfold post_to_n8n.post_incident_from_dict.
  unfold post_to_n8n.required_fields in Hsplit.
  repeat (destruct before as [|? before];
    [ injection Hsplit as <- _;
      first [ apply dict_getitem_missing; exact Hfield
            | apply run_bind_raise, dict_getitem_missing; exact Hfield ]
    | let Hp := fresh "Hp" in
      injection Hsplit as <- Hsplit;
      apply Forall_cons in Hbefore as [[? Hp] Hbefore];
      erewrite run_bind by (apply dict_getitem_present; exact Hp) ]).
  destruct before; discriminate Hsplit.
Qed.



(** X18.  A client made without a timeout uses 30: the request goes out
    with a timeout of 30, and a timeout is reported as
    [Request timed out after 30 seconds].  A client made with a timeout
    keeps it. *)
Theorem default_timeout_is_thirty (webhook_url : string)
    (policy_id customer_name incident_date incident_type description location
     estimated_damage : value) (w : World) :
  post_to_n8n.timeout (post_to_n8n.init webhook_url None) = 30 /\
  (forall seconds, post_to_n8n.timeout (post_to_n8n.init webhook_url (Some seconds)) = seconds) /\
  (exists request,
     posted (trace (snd (post_to_n8n.post_incident (post_to_n8n.init webhook_url None)
                           policy_id customer_name incident_date incident_type
                           description location estimated_damage w)))
     = (posted (trace w) ++ [request])%list /\
     req_url request = webhook_url /\ req_timeout request = 30 /\
     (forall e, post_result w request = Raise e ->
        issubclass (exn_cls e) (Requests Timeout) = true ->
        fst (post_to_n8n.post_incident (post_to_n8n.init webhook_url None)
               policy_id customer_name incident_date incident_type
               description location estimated_damage w)
        = Ret (VDict (result_failure "Request timed out after 30 seconds")))).
Proof.
  split; [reflexivity|]. split; [reflexivity|].
  eexists. split; [apply post_incident_posted|].
  split; [reflexivity|]. split; [reflexivity|].
  intros e Hfailed Htimeout. rewrite post_incident_value, Hfailed.
  unfold caught. rewrite Htimeout. reflexivity.
Qed.



(** X20.  The extractor's error record is not deliverable: the validator
    rejects it for the missing [policyId], and [post_incident_from_dict]
    raises [KeyError] for [policyId] before anything is printed or sent. *)
Theorem error_record_is_not_deliverable (self : post_to_n8n.N8NWebhookClient)
    (incident_data : ref) (w : World) (content : string) :
  heap w incident_data = invalid_json_record content ->
  post_to_n8n.validate_incident_data self incident_data w
  = (Ret (false, Some "Missing required field: policyId"), w) /\
  post_to_n8n.post_incident_from_dict self incident_data w
  = (Raise (Exn KeyError "'policyId'"), w).
Proof.
  intros Hheap.
  assert (heap w incident_data !! "policyId" = None) as Hmissing
    by (rewrite Hheap; reflexivity).
  split.
  - apply (validate_missing self incident_data w []
             "policyId" (tail post_to_n8n.required_fields));
      [reflexivity|constructor|exact Hmissing].
  - apply (post_incident_from_dict_missing self incident_data w []
             "policyId" (tail post_to_n8n.required_fields));
      [reflexivity|constructor|exact Hmissing].
Qed.

(** X20 on the record for an answer in prose. *)
Lemma error_record_is_not_deliverable_witness :
  post_to_n8n.validate_incident_data sample_client 0%nat
    (record_world (invalid_json_record "Sorry, I cannot help with that."))
  = (Ret (false, Some "Missing required field: policyId"),
     record_world (invalid_json_record "Sorry, I cannot help with that.")) /\
  post_to_n8n.post_incident_from_dict sample_client 0%nat
    (record_world (invalid_json_record "Sorry, I cannot help with that."))
  = (Raise (Exn KeyError "'policyId'"),
     record_world (invalid_json_record "Sorry, I cannot help with that.")).
Proof.
  apply (error_record_is_not_deliverable sample_client 0%nat
           (record_world (invalid_json_record "Sorry, I cannot help with that."))
           "Sorry, I cannot help with that." eq_refl).
Defined.

